(** * fastfood: the loader, the filters and the aggregations of the two
    dashboards ([apply.py], variant A, and [old-app.py], variant B).

    The pandas operations the scripts call are embedded as list functions on
    a frame of rows; a row maps a column name to a cell.  A cell read by
    [pd.read_csv] is a text or the missing value NaN; numeric dtype inference
    is not modelled, every column has the object dtype.  A text is a sequence
    of characters of code point below 256, one character of Rocq's [string]
    each.  The row labels (the index) are not modelled: no operation below
    looks at them. *)

From Stdlib Require Import String Ascii List Bool Arith Lia.
From Stdlib Require Import Permutation Sorted OrderedTypeEx ZArith QArith.
Import ListNotations.
Local Close Scope Q_scope.
Local Close Scope Z_scope.
Local Open Scope nat_scope.
Local Open Scope string_scope.
Local Open Scope list_scope.

(** ** Exceptions *)

(** The classes of exception the scripts name or can meet, all derived from
    [Exception]; an exception of no more specific class has the class
    [Exception] itself.  [URLError] is what a failed fetch raises inside
    [pd.read_csv]; [ParserError] a malformed file. *)
Inductive exn_class :=
| EmptyDataError
| KeyError
| URLError
| ParserError
| ZeroDivisionError
| Exception.

(** An exception: its class and [str(e)]. *)
Record exn := Raise { cls : exn_class; str : string }.

Inductive result (A : Type) :=
| Ok (a : A)
| Err (e : exn).
Arguments Ok {A} a.
Arguments Err {A} e.

Definition bind {A B} (m : result A) (k : A -> result B) : result B :=
  match m with
  | Ok a => k a
  | Err e => Err e
  end.

Notation "x <- m ;; k" := (bind m (fun x => k))
  (at level 61, m at next level, right associativity).

(** ** Frames *)

(** A cell: [None] is NaN. *)
Definition cell := option string.
Definition NaN : cell := None.

Definition Series := list cell.
Definition Row := string -> cell.

Record DataFrame := Frame { columns : list string; rows : list Row }.

Definition has_column (df : DataFrame) (c : string) : bool :=
  existsb (String.eqb c) (columns df).

(** [df[c]]: the column, or [KeyError] when the frame has no such column. *)
Definition getitem (df : DataFrame) (c : string) : result Series :=
  if has_column df c
  then Ok (map (fun r => r c) (rows df))
  else Err (Raise KeyError ("'" ++ c ++ "'")).

(** Selection of the positions a boolean mask marks. *)
Fixpoint select {A} (l : list A) (m : list bool) : list A :=
  match l, m with
  | x :: l', b :: m' => if b then x :: select l' m' else select l' m'
  | _, _ => []
  end.

(** [df[mask]]. *)
Definition loc (df : DataFrame) (m : list bool) : DataFrame :=
  Frame (columns df) (select (rows df) m).

(** ** Series operations *)

(** [x == v] on one cell, [v] a Python string: NaN equals nothing. *)
Definition cell_is (v : string) (x : cell) : bool :=
  match x with
  | Some s => String.eqb s v
  | None => false
  end.

(** [s == v] *)
Definition series_eq (s : Series) (v : string) : list bool :=
  map (cell_is v) s.

(** [a & b] *)
Fixpoint mask_and (a b : list bool) : list bool :=
  match a, b with
  | x :: a', y :: b' => (x && y) :: mask_and a' b'
  | _, _ => []
  end.

(** [x in values] on one cell. *)
Definition cell_in (values : list string) (x : cell) : bool :=
  match x with
  | Some s => existsb (String.eqb s) values
  | None => false
  end.

(** [s.isin(values)] *)
Definition isin (s : Series) (values : list string) : list bool :=
  map (cell_in values) s.

(** [str.lower] and [str.strip].  Below 256 the characters Python lowers
    are A to Z (65 to 90) and the capital letters 192 to 214 and 216 to 222,
    each to the character 32 above it; the characters [strip] removes are 9
    to 13, 28 to 32, 133 and 160. *)
Definition lower_ascii (c : ascii) : ascii :=
  let n := nat_of_ascii c in
  if (((65 <=? n) && (n <=? 90)) || ((192 <=? n) && (n <=? 214)) ||
      ((216 <=? n) && (n <=? 222)))%nat
  then ascii_of_nat (n + 32) else c.

Fixpoint lower (s : string) : string :=
  match s with
  | EmptyString => EmptyString
  | String c s' => String (lower_ascii c) (lower s')
  end.

Definition is_space (c : ascii) : bool :=
  let n := nat_of_ascii c in
  (((9 <=? n) && (n <=? 13)) || ((28 <=? n) && (n <=? 32)) ||
   (n =? 133) || (n =? 160))%nat.

Fixpoint lstrip (s : string) : string :=
  match s with
  | EmptyString => EmptyString
  | String c s' => if is_space c then lstrip s' else s
  end.

Fixpoint rstrip (s : string) : string :=
  match s with
  | EmptyString => EmptyString
  | String c s' =>
      match rstrip s' with
      | EmptyString => if is_space c then EmptyString else String c EmptyString
      | r => String c r
      end
  end.

Definition strip (s : string) : string := rstrip (lstrip s).

(** [s.str.lower()], [s.str.strip()]: NaN stays NaN. *)
Definition str_lower (s : Series) : Series := map (option_map lower) s.
Definition str_strip (s : Series) : Series := map (option_map strip) s.

(** [df[c] = s]: the cells of column [c] replaced positionwise. *)
Definition set_cell (c : string) (v : cell) (r : Row) : Row :=
  fun k => if String.eqb k c then v else r k.

Fixpoint set_cells (c : string) (l : list Row) (s : Series) : list Row :=
  match l, s with
  | r :: l', v :: s' => set_cell c v r :: set_cells c l' s'
  | _, _ => []
  end.

Definition setitem (df : DataFrame) (c : string) (s : Series) : DataFrame :=
  Frame (if has_column df c then columns df else columns df ++ [c])
        (set_cells c (rows df) s).

(** ** Variant A: the filters of [apply.py] *)

(** [filter_data_by_province]; the frame [df] it closes over is a parameter. *)
Definition filter_data_by_province (df : DataFrame) (province : string)
  : result DataFrame :=
  if String.eqb province "All" then Ok df
  else
    p <- getitem df "province" ;;
    Ok (loc df (series_eq p province)).

Definition filter_data_by_city_province (df : DataFrame) (city province : string)
  : result DataFrame :=
  if String.eqb province "All" then
    if String.eqb city "All" then Ok df
    else
      c <- getitem df "city" ;;
      Ok (loc df (series_eq (str_lower c) (lower city)))
  else if String.eqb city "All" then
    p <- getitem df "province" ;;
    Ok (loc df (series_eq p province))
  else
    c <- getitem df "city" ;;
    p <- getitem df "province" ;;
    Ok (loc df (mask_and (series_eq (str_lower c) (lower city))
                         (series_eq p province))).

(** [get_category_data]; [not categories_selected] is the empty list. *)
Definition get_category_data (df : DataFrame) (categories_selected : list string)
  : result DataFrame :=
  match categories_selected with
  | [] => Ok df
  | _ =>
      c <- getitem df "categories" ;;
      Ok (loc df (isin c categories_selected))
  end.

(** ** Grouping and counting *)

(** Stable insertion sort: [before y x] says that [y] must come strictly
    before [x]; elements neither of which must come before the other keep
    their order.  It stands for [sorted] and for the key order of [groupby],
    whose keys are distinct, and for [sort_values]; the default
    [kind='quicksort'] of [sort_values] fixes no order among rows of equal
    count, of which this is one. *)
Fixpoint insert_by {A} (before : A -> A -> bool) (x : A) (l : list A) : list A :=
  match l with
  | [] => [x]
  | y :: l' => if before y x then y :: insert_by before x l' else x :: l
  end.

Fixpoint sort_by {A} (before : A -> A -> bool) (l : list A) : list A :=
  match l with
  | [] => []
  | x :: l' => insert_by before x (sort_by before l')
  end.

(** [s.dropna()] *)
Fixpoint dropna (s : Series) : list string :=
  match s with
  | [] => []
  | Some v :: s' => v :: dropna s'
  | None :: s' => dropna s'
  end.

(** Number of elements of [l] equal to [k]. *)
Fixpoint count_eq {K} (eqb : K -> K -> bool) (k : K) (l : list K) : nat :=
  match l with
  | [] => 0
  | x :: l' => (if eqb k x then 1 else 0) + count_eq eqb k l'
  end.

(** The distinct elements of [l] in the order of their first occurrence. *)
Fixpoint distinct {K} (eqb : K -> K -> bool) (l : list K) : list K :=
  match l with
  | [] => []
  | x :: l' => x :: filter (fun y => negb (eqb x y)) (distinct eqb l')
  end.

Definition cell_eqb (a b : cell) : bool :=
  match a, b with
  | Some x, Some y => String.eqb x y
  | None, None => true
  | _, _ => false
  end.

(** [s.unique()]: NaN is one of the values. *)
Definition unique (s : Series) : list cell := distinct cell_eqb s.

(** A table of counts: a group and its count per row. *)
Definition Counts (K : Type) := list (K * nat).

Definition by_count_desc {K} (a b : K * nat) : bool := (snd b <? snd a)%nat.

(** [sort_values(by=['count'], ascending=False)] *)
Definition sort_values_count_desc {K} (t : Counts K) : Counts K :=
  sort_by by_count_desc t.

(** [head(n)] *)
Definition head {A} (n : nat) (l : list A) : list A := firstn n l.

(** [s.value_counts()]: NaN dropped, one row per distinct value in the order
    of first occurrence, then sorted by count, largest first. *)
Definition value_counts (s : Series) : Counts string :=
  let v := dropna s in
  sort_values_count_desc
    (map (fun k => (k, count_eq String.eqb k v)) (distinct String.eqb v)).

(** [groupby([c]).size()]: rows with a NaN key dropped, groups in the
    ascending order of the key. *)
Definition groupby_size (s : Series) : Counts string :=
  let v := dropna s in
  map (fun k => (k, count_eq String.eqb k v))
      (sort_by String.ltb (distinct String.eqb v)).

Definition pair_eqb (a b : string * string) : bool :=
  String.eqb (fst a) (fst b) && String.eqb (snd a) (snd b).

Definition pair_ltb (a b : string * string) : bool :=
  String.ltb (fst a) (fst b) ||
  (String.eqb (fst a) (fst b) && String.ltb (snd a) (snd b)).

(** The rows of two key columns in which neither key is NaN. *)
Fixpoint dropna2 (a b : Series) : list (string * string) :=
  match a, b with
  | x :: a', y :: b' =>
      match x, y with
      | Some u, Some v => (u, v) :: dropna2 a' b'
      | _, _ => dropna2 a' b'
      end
  | _, _ => []
  end.

(** [groupby([c1, c2]).size()] *)
Definition groupby_size2 (a b : Series) : Counts (string * string) :=
  let v := dropna2 a b in
  map (fun k => (k, count_eq pair_eqb k v))
      (sort_by pair_ltb (distinct pair_eqb v)).

(** Sum of the count column. *)
Definition total {K} (t : Counts K) : nat := list_sum (map snd t).

(** [get_top_10_restaurants]: the table has the columns [name] and [count]. *)
Definition get_top_10_restaurants (df : DataFrame) : result (Counts string) :=
  n <- getitem df "name" ;;
  let restaurant_counts := groupby_size n in
  Ok (head 10 (sort_values_count_desc restaurant_counts)).

(** ** Variant A: the loader of [apply.py] *)

(** [isinstance(e, c)]: every class derives from [Exception]. *)
Definition class_eqb (a b : exn_class) : bool :=
  match a, b with
  | EmptyDataError, EmptyDataError | KeyError, KeyError
  | URLError, URLError | ParserError, ParserError
  | ZeroDivisionError, ZeroDivisionError
  | Exception, Exception => true
  | _, _ => false
  end.

Definition isinstance (e : exn) (c : exn_class) : bool :=
  match c with
  | Exception => true
  | _ => class_eqb (cls e) c
  end.

(** [df.drop_duplicates(subset=[c], keep='last')]: a row is dropped when a
    later row has the same cell in column [c]; NaN cells count as equal. *)
Fixpoint keep_last (c : string) (l : list Row) : list Row :=
  match l with
  | [] => []
  | r :: l' =>
      if existsb (fun r' => cell_eqb (r' c) (r c)) l'
      then keep_last c l'
      else r :: keep_last c l'
  end.

Definition drop_duplicates_last (df : DataFrame) (c : string) : result DataFrame :=
  if has_column df c
  then Ok (Frame (columns df) (keep_last c (rows df)))
  else Err (Raise KeyError ("Index(['" ++ c ++ "'], dtype='object')")).

(** The messages [st.error] shows. *)
Definition msg_no_data : string := "Error: No data found in the file.".
Definition msg_categories_missing : string :=
  "Error: The 'categories' column is missing in the data.".
Definition msg_unexpected (e : exn) : string :=
  "An unexpected error occurred: " ++ str e.
Definition msg_failed : string :=
  "Failed to load data. Please try again later.".

(** The [try] block of [load_and_clean_data].  [read_csv] is the outcome of
    [pd.read_csv(url)]: the parsed frame or the exception raised. *)
Definition load_and_clean_data_try (read_csv : result DataFrame)
  : result DataFrame :=
  df <- read_csv ;;
  df <- drop_duplicates_last df "id" ;;
  c <- getitem df "categories" ;;
  Ok (setitem df "categories" (str_lower (str_strip c))).

(** [load_and_clean_data]: the value returned, or the exception it lets
    through, and the messages shown.  A handler returns nothing: [None]. *)
Definition load_and_clean_data (read_csv : result DataFrame)
  : result (option DataFrame) * list string :=
  match load_and_clean_data_try read_csv with
  | Ok df => (Ok (Some df), [])
  | Err e =>
      if isinstance e EmptyDataError then (Ok None, [msg_no_data])
      else if isinstance e KeyError then (Ok None, [msg_categories_missing])
      else if isinstance e Exception then (Ok None, [msg_unexpected e])
      else (Err e, [])
  end.

(** ** Variant A: the widgets of [apply.py] *)

(** [sorted(l)] for the texts and NaN of [unique().tolist()].  Python cannot
    compare a text with NaN, a float: as soon as there are two elements to
    compare and one of them is NaN it raises [TypeError], which has the class
    [Exception] here. *)
Definition sorted (l : list cell) : result (list cell) :=
  match l with
  | [] | [_] => Ok l
  | _ =>
      if existsb (cell_eqb None) l
      then Err (Raise Exception
                  "'<' not supported between instances of 'float' and 'str'")
      else Ok (map Some (sort_by String.ltb (dropna l)))
  end.

(** [available_cities]: the cities offered once the province is selected. *)
Definition available_cities (df : DataFrame) (selected_province : string)
  : result (list cell) :=
  if String.eqb selected_province "All" then
    c <- getitem df "city" ;;
    sorted (unique c)
  else
    p <- getitem df "province" ;;
    c <- getitem (loc df (series_eq p selected_province)) "city" ;;
    sorted (unique c).

(** The options of the state and of the category widget of variant A,
    [sorted(df[c].unique().tolist())] for the columns [province] and
    [categories]. *)
Definition options (c : string) (df : DataFrame) : result (list cell) :=
  col <- getitem df c ;;
  sorted (unique col).

(** ** Variant A: the script of [apply.py] *)

(** What the script computes for one choice of the widgets, in the order of
    the script: the options of a widget are computed where the widget is
    made, and the script stops when that raises.  The charts and the merge
    that feeds the density map, for which see [map_data], are left out. *)
Record Dashboard := {
  filtered_df : DataFrame;
  filtered_city_province_df : DataFrame;
  province_counts : Counts string;
  category_data : DataFrame;
  category_counts : Counts (string * string);
  type_counts : Counts string;
  top_10_restaurants_data : Counts string;
  top_10_data : DataFrame
}.

Definition dashboard (df : DataFrame) (selected_province selected_city : string)
  (categories_selected : list string) : result Dashboard :=
  _ <- options "province" df ;;
  filtered_df <- filter_data_by_province df selected_province ;;
  _ <- available_cities df selected_province ;;
  filtered_city_province_df <-
    filter_data_by_city_province filtered_df selected_city selected_province ;;
  p <- getitem filtered_city_province_df "province" ;;
  let province_counts := value_counts p in
  _ <- options "categories" df ;;
  category_data <- get_category_data df categories_selected ;;
  cp <- getitem category_data "province" ;;
  cc <- getitem category_data "categories" ;;
  let category_counts := groupby_size2 cp cc in
  let type_counts := value_counts cc in
  top_10_restaurants_data <- get_top_10_restaurants filtered_df ;;
  n <- getitem df "name" ;;
  let top_10_data := loc df (isin n (map fst top_10_restaurants_data)) in
  Ok {| filtered_df := filtered_df;
        filtered_city_province_df := filtered_city_province_df;
        province_counts := province_counts;
        category_data := category_data;
        category_counts := category_counts;
        type_counts := type_counts;
        top_10_restaurants_data := top_10_restaurants_data;
        top_10_data := top_10_data |}.

(** The whole script: [df = load_and_clean_data()], then the dashboard under
    [if df is not None], else the last message. *)
Definition apply_py (read_csv : result DataFrame)
  (selected_province selected_city : string) (categories_selected : list string)
  : result (option Dashboard) * list string :=
  match load_and_clean_data read_csv with
  | (Err e, shown) => (Err e, shown)
  | (Ok None, shown) => (Ok None, shown ++ [msg_failed])
  | (Ok (Some df), shown) =>
      (d <- dashboard df selected_province selected_city categories_selected ;;
       Ok (Some d), shown)
  end.

(** ** Variant B: [old-app.py] *)

(** [s.startswith(p)] *)
Fixpoint startswith (p s : string) : bool :=
  match p, s with
  | EmptyString, _ => true
  | String a p', String b s' => Ascii.eqb a b && startswith p' s'
  | String _ _, EmptyString => false
  end.

(** [s.split(sep)] for a non-empty [sep], read from left to right: [skip]
    characters of a separator just met are still to pass, [cur] is the token
    read so far. *)
Fixpoint split_go (sep s : string) (skip : nat) (cur : string) : list string :=
  match s with
  | EmptyString => [cur]
  | String c s' =>
      match skip with
      | S k => split_go sep s' k cur
      | O =>
          if startswith sep s
          then cur :: split_go sep s' (String.length sep - 1) EmptyString
          else split_go sep s' 0 (cur ++ String c EmptyString)
      end
  end.

Definition split (sep s : string) : list string := split_go sep s 0 EmptyString.

(** A cell of the column [categories] after [str.split]: a list of tokens,
    or NaN. *)
Definition cells := option (list string).

(** [s.str.split(' and ')] *)
Definition str_split (sep : string) (s : Series) : list cells :=
  map (option_map (split sep)) s.

(** The frame of variant B once [categories] holds lists: each row goes with
    its cell of that column, every other column stays a text or NaN. *)
Record FrameB := FrameOfLists {
  columnsB : list string;
  rowsB : list (Row * cells)
}.

(** [df['categories'] = lists] *)
Definition setitem_lists (df : DataFrame) (l : list cells) : FrameB :=
  FrameOfLists (columns df) (combine (rows df) l).

Definition has_columnB (df : FrameB) (c : string) : bool :=
  existsb (String.eqb c) (columnsB df).

(** [df[c]] for a column [c] other than [categories], whose cells are the
    second components of the rows. *)
Definition getitemB (df : FrameB) (c : string) : result Series :=
  if has_columnB df c
  then Ok (map (fun r => fst r c) (rowsB df))
  else Err (Raise KeyError ("'" ++ c ++ "'")).

Definition locB (df : FrameB) (m : list bool) : FrameB :=
  FrameOfLists (columnsB df) (select (rowsB df) m).

Definition msg_error_loading (e : exn) : string :=
  "Error loading data: " ++ str e.

Definition load_data_try (read_csv : result DataFrame) : result FrameB :=
  df <- read_csv ;;
  c <- getitem df "categories" ;;
  Ok (setitem_lists df (str_split " and " c)).

(** [load_data] *)
Definition load_data (read_csv : result DataFrame)
  : result (option FrameB) * list string :=
  match load_data_try read_csv with
  | Ok df => (Ok (Some df), [])
  | Err e =>
      if isinstance e Exception then (Ok None, [msg_error_loading e])
      else (Err e, [])
  end.

(** [df.explode('categories')]: one row per token; a NaN or an empty list
    gives one row with NaN. *)
Definition explode_row (r : Row * cells) : list Row :=
  match snd r with
  | None | Some [] => [set_cell "categories" None (fst r)]
  | Some l => map (fun t => set_cell "categories" (Some t) (fst r)) l
  end.

Definition explode (df : FrameB) : DataFrame :=
  Frame (columnsB df) (flat_map explode_row (rowsB df)).

(** The selection of [main]: the states, then the chains when some are
    selected. *)
Definition filter_selection (df : FrameB) (selected_state selected_chains : list string)
  : result FrameB :=
  p <- getitemB df "province" ;;
  let filtered_df := locB df (isin p selected_state) in
  match selected_chains with
  | [] => Ok filtered_df
  | _ =>
      n <- getitemB filtered_df "name" ;;
      Ok (locB filtered_df (isin n selected_chains))
  end.

(** [density_df] of the first tab. *)
Definition density (filtered_df : FrameB) : result (Counts string) :=
  p <- getitemB filtered_df "province" ;;
  Ok (value_counts p).

(** [category_counts] of the second tab. *)
Definition category_countsB (filtered_df : FrameB) : result (Counts string) :=
  let categories_df := explode filtered_df in
  c <- getitem categories_df "categories" ;;
  Ok (value_counts c).

(** [state_df] of the third tab. *)
Definition state_of (df : FrameB) (selected_state_analysis : string)
  : result FrameB :=
  p <- getitemB df "province" ;;
  Ok (locB df (series_eq p selected_state_analysis)).

(** [a / b] on two lengths: Python's true division.  The quotient is kept
    exact; the float Python returns is the double nearest to it. *)
Definition true_div (a b : nat) : result Q :=
  match b with
  | O => Err (Raise ZeroDivisionError "division by zero")
  | S _ => Ok (Qmake (Z.of_nat a) (Pos.of_nat b))
  end.

(** [len(state_df) / len(state_df[dim].unique())], for a column [dim] other
    than [categories]; the script has it for [city]. *)
Definition avg_per (dim : string) (state_df : FrameB) : result Q :=
  c <- getitemB state_df dim ;;
  true_div (List.length (rowsB state_df)) (List.length (unique c)).

Definition avg_per_city (state_df : FrameB) : result Q := avg_per "city" state_df.

(** ** The vocabulary of the specification *)

Definition schema : list string :=
  ["id"; "name"; "address"; "city"; "postalCode"; "province";
   "latitude"; "longitude"; "categories"].

(** A Table: a frame that has the columns of the schema. *)
Definition is_table (df : DataFrame) : bool := forallb (has_column df) schema.
Definition is_tableB (df : FrameB) : bool := forallb (has_columnB df) schema.

(** The city of a row matches [city] whatever the case of the letters. *)
Definition city_matches (city : string) (r : Row) : bool :=
  match r "city" with
  | Some s => String.eqb (lower s) (lower city)
  | None => false
  end.

(** The condition of the specification's [filterByCityAndProvince]: ["All"]
    removes the condition on its dimension. *)
Definition city_province_condition (city province : string) (r : Row) : bool :=
  (String.eqb city "All" || city_matches city r) &&
  (String.eqb province "All" || cell_is province (r "province")).

(** What the loader of variant A does to a row it keeps. *)
Definition clean (r : Row) : Row :=
  set_cell "categories" (option_map lower (option_map strip (r "categories"))) r.

(** The conditions of the specification's loader, read off the messages
    shown: [DataUnavailable] is one of the two specific messages,
    [LoadError m] the generic one carrying [m]. *)
Definition DataUnavailable (shown : list string) : Prop :=
  shown = [msg_no_data] \/ shown = [msg_categories_missing].

Definition LoadError (m : string) (shown : list string) : Prop :=
  shown = [("An unexpected error occurred: " ++ m)%string].

(** The three causes the specification names. *)
Definition fetch_fails (read_csv : result DataFrame) : Prop :=
  exists m, read_csv = Err (Raise URLError m).

Definition resource_empty (read_csv : result DataFrame) : Prop :=
  exists m, read_csv = Err (Raise EmptyDataError m).

Definition categories_absent (read_csv : result DataFrame) : Prop :=
  exists df, read_csv = Ok df /\ has_column df "categories" = false.

(** Position of the first occurrence of [k] in [l] ([length l] if none). *)
Fixpoint first_seen (k : string) (l : list string) : nat :=
  match l with
  | [] => 0
  | x :: l' => if String.eqb k x then 0 else S (first_seen k l')
  end.

(** Ties of a table of counts are in the order in which the groups are first
    seen in [names]. *)
Definition ties_by_first_seen (names : list string) (t : Counts string) : Prop :=
  forall i j a b, i < j ->
    nth_error t i = Some a -> nth_error t j = Some b -> snd a = snd b ->
    first_seen (fst a) names < first_seen (fst b) names.

(** The order of the rows [get_top_10_restaurants] returns: larger count
    first, and among equal counts the smaller name first. *)
Definition count_then_name (a b : string * nat) : Prop :=
  snd b < snd a \/ (snd a = snd b /\ String.ltb (fst a) (fst b) = true).

(** What a stable sort by [before] makes of a list in the order [R]: [a] is
    placed before [b] when it must come before it, or when neither must come
    before the other and [a] was before [b]. *)
Definition placed {A} (before : A -> A -> bool) (R : A -> A -> Prop) (a b : A)
  : Prop :=
  before a b = true \/ (before b a = false /\ R a b).

(** Number of rows of a frame whose cell in column [c] is not NaN. *)
Definition present (c : string) (df : DataFrame) : nat :=
  List.length (dropna (map (fun r => r c) (rows df))).

(** Number of distinct values of the column [dim], NaN one of them. *)
Definition groups (dim : string) (T : FrameB) : nat :=
  List.length (unique (map (fun r => fst r dim) (rowsB T))).

(** Number of tokens of a row of variant B (none for NaN). *)
Definition tokens (r : Row * cells) : nat :=
  match snd r with
  | Some l => List.length l
  | None => 0
  end.

(** ** The words of the properties *)

(** [out] is what is left of [l] when exactly the elements that satisfy [P]
    are kept, in their order. *)
Inductive selected {A : Type} (P : A -> Prop) : list A -> list A -> Prop :=
| selected_nil : selected P [] []
| selected_keep x l out :
    P x -> selected P l out -> selected P (x :: l) (x :: out)
| selected_drop x l out :
    ~ P x -> selected P l out -> selected P (x :: l) out.

(** The letters below 256, each capital with its small letter. *)
Definition letters : list (ascii * ascii) :=
  combine (list_ascii_of_string "ABCDEFGHIJKLMNOPQRSTUVWXYZ")
          (list_ascii_of_string "abcdefghijklmnopqrstuvwxyz") ++
  map (fun n => (ascii_of_nat n, ascii_of_nat (n + 32))) (seq 192 23 ++ seq 216 7).

(** Two characters that are the same but for the case: the same character,
    or the capital and the small letter of one letter. *)
Definition same_letter (c d : ascii) : bool :=
  Ascii.eqb c d ||
  existsb (fun l => (Ascii.eqb c (fst l) && Ascii.eqb d (snd l)) ||
                    (Ascii.eqb d (fst l) && Ascii.eqb c (snd l)))
          letters.

(** Two texts that are the same but for the case of their letters. *)
Fixpoint same_text (a b : string) : bool :=
  match a, b with
  | EmptyString, EmptyString => true
  | String c a', String d b' => same_letter c d && same_text a' b'
  | _, _ => false
  end.

(** What the selections of variant A ask of a row: its city is [city] but
    for the case of the letters, its province is [province], its categories
    is one of the selected; the word "All", and no category selected, ask
    nothing. *)
Definition in_city (city : string) (r : Row) : Prop :=
  city = "All" \/ exists s, r "city" = Some s /\ same_text s city = true.

Definition in_province (province : string) (r : Row) : Prop :=
  province = "All" \/ r "province" = Some province.

Definition in_categories (categories_selected : list string) (r : Row) : Prop :=
  categories_selected = [] \/
  exists v, r "categories" = Some v /\ In v categories_selected.

(** What the selection of variant B asks of a row: its state is one of the
    selected states and, when chains are selected, its name is one of
    them. *)
Definition in_selection (selected_state selected_chains : list string)
  (r : Row * cells) : Prop :=
  (exists v, fst r "province" = Some v /\ In v selected_state) /\
  (selected_chains = [] \/
   exists n, fst r "name" = Some n /\ In n selected_chains).

(** A table in which no row lacks its province, its city or its categories:
    the widgets of variant A have no NaN among their options. *)
Definition complete (df : DataFrame) : bool :=
  forallb (fun r =>
             match r "province", r "city", r "categories" with
             | Some _, Some _, Some _ => true
             | _, _, _ => false
             end)
          (rows df).

(** ** Sample data *)

(** A row of the file given by its cells in [id], [name], [city],
    [province] and [categories]; the other columns are left empty. *)
Definition record (id name city province categories : cell) : Row :=
  fun k =>
    if String.eqb k "id" then id
    else if String.eqb k "name" then name
    else if String.eqb k "city" then city
    else if String.eqb k "province" then province
    else if String.eqb k "categories" then categories
    else None.

(** Four restaurants of two cities of Texas and one of New York. *)
Definition sample_rows : list Row :=
  [ record (Some "r1") (Some "Wendy's") (Some "Austin") (Some "TX") (Some " Burgers ");
    record (Some "r2") (Some "Arby's") (Some "austin") (Some "TX") (Some "Sandwiches");
    record (Some "r3") (Some "Wendy's") (Some "Dallas") (Some "TX") (Some "Burgers and Fries");
    record (Some "r1") (Some "Wendy's") (Some "AUSTIN") (Some "TX") (Some "Burgers");
    record (Some "r5") (Some "Arby's") (Some "Albany") (Some "NY") None ].

Definition sample : DataFrame := Frame schema sample_rows.

(** The sample as variant B loads it. *)
Definition sampleB : FrameB :=
  setitem_lists sample
    (str_split " and " (map (fun r => r "categories") (rows sample))).

(** Four restaurants of one state, of two cities. *)
Definition four_restaurants : DataFrame :=
  Frame schema
    [ record (Some "r1") (Some "Wendy's") (Some "Austin") (Some "TX") (Some "Burgers");
      record (Some "r2") (Some "Arby's") (Some "Austin") (Some "TX") (Some "Sandwiches");
      record (Some "r3") (Some "Wendy's") (Some "Dallas") (Some "TX") (Some "Burgers");
      record (Some "r4") (Some "Sonic") (Some "Dallas") (Some "TX") (Some "Burgers and Fries") ].

Definition four_rows : FrameB :=
  setitem_lists four_restaurants
    (str_split " and " (map (fun r => r "categories") (rows four_restaurants))).

(** Tables with no rows. *)
Definition no_rows : DataFrame := Frame schema [].
Definition no_rowsB : FrameB := FrameOfLists schema [].

(** A file of one restaurant with two categories. *)
Definition one_row : DataFrame :=
  Frame schema
    [ record (Some "r1") (Some "Wendy's") (Some "Austin") (Some "TX")
             (Some "Burgers and Fries") ].

(** A file of two restaurants of different chains. *)
Definition two_chains : DataFrame :=
  Frame schema
    [ record (Some "r1") (Some "Wendy's") (Some "Austin") (Some "TX") (Some "Burgers");
      record (Some "r2") (Some "Arby's") (Some "Austin") (Some "TX") (Some "Sandwiches") ].

(** The same two restaurants, listed the other way round. *)
Definition two_chains_exchanged : DataFrame :=
  Frame schema (rev (rows two_chains)).

(** The outcome of [pd.read_csv] when the connection is refused. *)
Definition fetch_refused : result DataFrame :=
  Err (Raise URLError "<urlopen error [Errno 111] Connection refused>").

(** ** Views *)

(** The rows of a frame that satisfy a condition, in their order. *)
Definition view (f : Row -> bool) (df : DataFrame) : DataFrame :=
  Frame (columns df) (filter f (rows df)).

(** The conditions of the filters of variant A. *)
Definition province_condition (province : string) (r : Row) : bool :=
  String.eqb province "All" || cell_is province (r "province").

Definition category_condition (categories_selected : list string) (r : Row) : bool :=
  match categories_selected with
  | [] => true
  | _ => cell_in categories_selected (r "categories")
  end.

(** A table of counts of the values [v]: no group twice, and with each group
    the number of its occurrences in [v], which is not zero. *)
Definition counts_of {K} (eqb : K -> K -> bool) (v : list K) (t : Counts K) : Prop :=
  NoDup (map fst t) /\
  forall k n, In (k, n) t -> n = count_eq eqb k v /\ 1 <= n.

(** ** The density map of variant A *)

(** [pd.merge(left, right, on='province', how='left')] for a table [right] of
    the columns [province] and [count]: each row of [left], in order, once
    with each row of [right] of the same province, or once with NaN when
    there is none.  The new column [count] is kept beside the row. *)
Definition merge_left (left : DataFrame) (right : Counts string)
  : list (Row * option nat) :=
  flat_map
    (fun r =>
       match filter (fun kv => cell_is (fst kv) (r "province")) right with
       | [] => [(r, None)]
       | m => map (fun kv => (r, Some (snd kv))) m
       end)
    (rows left).

(** [map_data] of the script, from [filtered_city_province_df]. *)
Definition map_data (filtered_city_province_df : DataFrame)
  : result (list (Row * option nat)) :=
  p <- getitem filtered_city_province_df "province" ;;
  let province_counts := value_counts p in
  Ok (merge_left filtered_city_province_df province_counts).

(** ** The tabs of variant B *)

(** The condition of the selection of [main]. *)
Definition selection_condition (selected_state selected_chains : list string)
  (r : Row * cells) : bool :=
  cell_in selected_state (fst r "province") &&
  match selected_chains with
  | [] => true
  | _ => cell_in selected_chains (fst r "name")
  end.

(** [city_counts] and [chain_counts] of the third tab, for the columns [city]
    and [name]. *)
Definition top_counts (c : string) (state_df : FrameB) : result (Counts string) :=
  s <- getitemB state_df c ;;
  Ok (head 10 (value_counts s)).

(** [state_categories] of the third tab. *)
Definition state_categories (state_df : FrameB) : result (Counts string) :=
  c <- getitem (explode state_df) "categories" ;;
  Ok (head 5 (value_counts c)).

(** The sample read from a file that has no column [province]. *)
Definition no_province : DataFrame :=
  Frame ["id"; "name"; "address"; "city"; "postalCode";
         "latitude"; "longitude"; "categories"] sample_rows.

(** Five restaurants of two states, no cell missing, as the loader of
    variant A leaves them. *)
Definition wendys_austin : Row :=
  record (Some "r1") (Some "Wendy's") (Some "Austin") (Some "TX") (Some "burgers").
Definition arbys_austin : Row :=
  record (Some "r2") (Some "Arby's") (Some "AUSTIN") (Some "TX") (Some "sandwiches").
Definition wendys_dallas : Row :=
  record (Some "r3") (Some "Wendy's") (Some "Dallas") (Some "TX") (Some "burgers").
Definition sonic_albany : Row :=
  record (Some "r4") (Some "Sonic") (Some "Albany") (Some "NY")
         (Some "burgers and fries").
Definition arbys_albany : Row :=
  record (Some "r5") (Some "Arby's") (Some "Albany") (Some "NY") (Some "sandwiches").

Definition restaurants : DataFrame :=
  Frame schema
    [wendys_austin; arbys_austin; wendys_dallas; sonic_albany; arbys_albany].

(** The same as variant B loads them. *)
Definition restaurantsB : FrameB :=
  setitem_lists restaurants
    (str_split " and " (map (fun r => r "categories") (rows restaurants))).

(** * Properties *)

(** ** Frames and masks *)

Lemma select_map {A} (f : A -> bool) (l : list A) :
  select l (map f l) = filter f l.
Proof.
  induction l as [|x l IH]; simpl; [reflexivity|].
  destruct (f x); rewrite IH; reflexivity.
Qed.

Lemma select_map_map {A B} (g : A -> B) (f : B -> bool) (l : list A) :
  select l (map f (map g l)) = filter (fun x => f (g x)) l.
Proof. rewrite map_map. apply select_map. Qed.

Lemma select_mask_and {A} (f g : A -> bool) (l : list A) :
  select l (mask_and (map f l) (map g l)) = filter (fun x => f x && g x) l.
Proof.
  induction l as [|x l IH]; simpl; [reflexivity|].
  destruct (f x), (g x); simpl; rewrite IH; reflexivity.
Qed.

Lemma filter_all {A} (f : A -> bool) (l : list A) :
  (forall x, In x l -> f x = true) -> filter f l = l.
Proof.
  induction l as [|x l IH]; simpl; intros H; [reflexivity|].
  rewrite (H x (or_introl eq_refl)), IH; auto.
Qed.

Lemma frame_eta (df : DataFrame) : Frame (columns df) (rows df) = df.
Proof. destruct df; reflexivity. Qed.

Lemma getitem_ok (df : DataFrame) (c : string) :
  has_column df c = true -> getitem df c = Ok (map (fun r => r c) (rows df)).
Proof. unfold getitem. intros ->. reflexivity. Qed.

Lemma is_table_has (df : DataFrame) (c : string) :
  is_table df = true -> In c schema -> has_column df c = true.
Proof.
  unfold is_table. rewrite forallb_forall. auto.
Qed.

(** The columns of the schema, each in a table. *)
Ltac schema_column :=
  match goal with
  | H : is_table ?df = true |- has_column ?df ?c = true =>
      apply (is_table_has df c H); simpl; tauto
  end.

Lemma cell_is_eq (v : string) (x : cell) : cell_is v x = true <-> x = Some v.
Proof.
  destruct x as [s|]; simpl.
  - rewrite String.eqb_eq. split; [intros ->; reflexivity | congruence].
  - split; discriminate.
Qed.

Lemma city_mask (city : string) (r : Row) :
  cell_is (lower city) (option_map lower (r "city")) = city_matches city r.
Proof. unfold city_matches. destruct (r "city"); reflexivity. Qed.

(** ** The filters *)

(** C6: [filter_data_by_province] with ["All"] returns the table itself; with
    a province [P] it returns, of a table, exactly the rows whose province is
    [P]: every row returned has the province [P], and every row of the table
    with the province [P] is returned. *)
Theorem filter_data_by_province_spec (df : DataFrame) (P : string) :
  filter_data_by_province df "All" = Ok df /\
  (P <> "All" -> is_table df = true ->
   exists out,
     filter_data_by_province df P = Ok out /\
     columns out = columns df /\
     rows out = filter (fun r => cell_is P (r "province")) (rows df) /\
     (forall r, In r (rows out) -> r "province" = Some P) /\
     (forall r, In r (rows df) -> r "province" = Some P -> In r (rows out))).
Proof.
  split; [reflexivity|].
  intros HP Ht. unfold filter_data_by_province.
  apply String.eqb_neq in HP. rewrite HP.
  rewrite getitem_ok by schema_column. simpl.
  eexists. split; [reflexivity|]. unfold series_eq. simpl.
  rewrite select_map_map.
  repeat split.
  - intros r Hr. apply filter_In in Hr. apply cell_is_eq, Hr.
  - intros r Hr Hp. apply filter_In. split; [exact Hr|]. apply cell_is_eq, Hp.
Qed.

Lemma filter_data_by_province_witness :
  filter_data_by_province sample "All" = Ok sample /\
  exists out,
    filter_data_by_province sample "NY" = Ok out /\
    columns out = columns sample /\
    rows out = filter (fun r => cell_is "NY" (r "province")) (rows sample) /\
    (forall r, In r (rows out) -> r "province" = Some "NY") /\
    (forall r, In r (rows sample) -> r "province" = Some "NY" -> In r (rows out)).
Proof.
  destruct (filter_data_by_province_spec sample "NY") as [H1 H2].
  split; [exact H1|].
  apply H2; [discriminate | reflexivity].
Defined.

(** Every character is one of the 256. *)
Lemma all_chars (c : ascii) : In c (map ascii_of_nat (seq 0 256)).
Proof.
  rewrite <- (ascii_nat_embedding c). apply in_map, in_seq.
  pose proof (nat_ascii_bounded c). lia.
Qed.

(** [lower] sends two characters to the same one exactly when they are the
    same but for the case: checked on the 256 by 256 pairs. *)
Lemma lower_ascii_same_letter (c d : ascii) :
  Ascii.eqb (lower_ascii c) (lower_ascii d) = same_letter c d.
Proof.
  assert (H : forallb
                (fun c => forallb
                   (fun d => Bool.eqb (Ascii.eqb (lower_ascii c) (lower_ascii d))
                                      (same_letter c d))
                   (map ascii_of_nat (seq 0 256)))
                (map ascii_of_nat (seq 0 256)) = true)
    by (vm_compute; reflexivity).
  rewrite forallb_forall in H. specialize (H c (all_chars c)).
  rewrite forallb_forall in H. specialize (H d (all_chars d)).
  apply Bool.eqb_prop in H. exact H.
Qed.

Lemma lower_same_text (a b : string) :
  String.eqb (lower a) (lower b) = same_text a b.
Proof.
  revert b. induction a as [|c a IH]; intros [|d b]; simpl; try reflexivity.
  rewrite lower_ascii_same_letter, IH. reflexivity.
Qed.

Lemma filter_selected {A} (P : A -> Prop) (f : A -> bool) (l : list A) :
  (forall x, f x = true <-> P x) -> selected P l (filter f l).
Proof.
  intros H. induction l as [|x l IH]; simpl; [constructor|].
  destruct (f x) eqn:E.
  - apply selected_keep; [apply H, E | exact IH].
  - apply selected_drop; [|exact IH]. intros Hx. apply H in Hx. congruence.
Qed.

Lemma city_province_condition_iff (city province : string) (r : Row) :
  city_province_condition city province r = true <->
  in_city city r /\ in_province province r.
Proof.
  unfold city_province_condition, in_city, in_province, city_matches.
  rewrite andb_true_iff, !orb_true_iff, !String.eqb_eq, cell_is_eq.
  apply and_iff_compat_r. apply or_iff_compat_l.
  destruct (r "city") as [s|].
  - rewrite lower_same_text. split; [eauto|]. intros (t & [= <-] & H). exact H.
  - split; [discriminate|]. intros (t & H & _). discriminate.
Qed.

(** C5: on a table, [filter_data_by_city_province] returns exactly the rows
    whose city is [city] but for the case of the letters and whose province
    is [province], in their order and with the columns of the table; the
    word "All" removes the condition on its dimension, so that with "All"
    twice the table itself is returned. *)
Theorem filter_data_by_city_province_spec (df : DataFrame) (city province : string) :
  filter_data_by_city_province df "All" "All" = Ok df /\
  (is_table df = true ->
   exists out,
     filter_data_by_city_province df city province = Ok out /\
     columns out = columns df /\
     selected (fun r => in_city city r /\ in_province province r)
              (rows df) (rows out)).
Proof.
  split; [reflexivity|].
  intros Ht.
  assert (E : filter_data_by_city_province df city province =
              Ok (Frame (columns df)
                    (filter (city_province_condition city province) (rows df)))).
  { unfold filter_data_by_city_province, city_province_condition.
    destruct (String.eqb province "All") eqn:Ep;
      destruct (String.eqb city "All") eqn:Ec; simpl.
    - rewrite filter_all by reflexivity. rewrite frame_eta. reflexivity.
    - rewrite getitem_ok by schema_column. simpl.
      unfold loc, series_eq, str_lower. rewrite !map_map, select_map.
      do 2 f_equal. apply filter_ext. intros r.
      rewrite city_mask, andb_true_r. reflexivity.
    - rewrite getitem_ok by schema_column. simpl.
      unfold loc, series_eq. rewrite select_map_map. reflexivity.
    - rewrite !getitem_ok by schema_column. simpl.
      unfold loc, series_eq, str_lower. rewrite !map_map.
      rewrite (select_mask_and
                 (fun r => cell_is (lower city) (option_map lower (r "city")))
                 (fun r => cell_is province (r "province"))).
      do 2 f_equal. apply filter_ext. intros r. rewrite city_mask. reflexivity. }
  eexists. split; [exact E|]. split; [reflexivity|].
  apply filter_selected. intros r. apply city_province_condition_iff.
Qed.

Lemma filter_data_by_city_province_witness :
  filter_data_by_city_province restaurants "All" "All" = Ok restaurants /\
  filter_data_by_city_province restaurants "austin" "TX" =
    Ok (Frame schema [wendys_austin; arbys_austin]) /\
  selected (fun r => in_city "austin" r /\ in_province "TX" r)
           (rows restaurants) [wendys_austin; arbys_austin].
Proof.
  destruct (filter_data_by_city_province_spec restaurants "austin" "TX") as [H1 H2].
  split; [exact H1|].
  destruct (H2 eq_refl) as (out & Hout & _ & Hsel).
  assert (E : out = Frame schema [wendys_austin; arbys_austin]).
  { assert (H : filter_data_by_city_province restaurants "austin" "TX" =
                Ok (Frame schema [wendys_austin; arbys_austin])) by reflexivity.
    rewrite Hout in H. injection H as H. exact H. }
  subst out. split; [exact Hout | exact Hsel].
Defined.

Lemma is_table_columns (df df' : DataFrame) :
  columns df' = columns df -> is_table df' = is_table df.
Proof.
  unfold is_table, has_column. intros ->. reflexivity.
Qed.

Lemma filter_data_by_province_ok (df : DataFrame) (province : string) :
  is_table df = true ->
  exists out, filter_data_by_province df province = Ok out /\
              columns out = columns df /\
              (rows df = [] -> out = df).
Proof.
  intros Ht. unfold filter_data_by_province.
  destruct (String.eqb province "All").
  - exists df. auto.
  - rewrite getitem_ok by schema_column. simpl.
    eexists. split; [reflexivity|]. split; [reflexivity|].
    intros E. destruct df as [cs rs]. simpl in E. subst rs. reflexivity.
Qed.

Lemma filter_data_by_city_province_ok (df : DataFrame) (city province : string) :
  is_table df = true ->
  exists out, filter_data_by_city_province df city province = Ok out /\
              columns out = columns df /\
              (rows df = [] -> out = df).
Proof.
  intros Ht. unfold filter_data_by_city_province.
  destruct (String.eqb province "All"), (String.eqb city "All");
    rewrite ?getitem_ok by schema_column; simpl;
    (eexists; split; [reflexivity|]; split; [reflexivity|]);
    intros E; destruct df as [cs rs]; simpl in E; subst rs; reflexivity.
Qed.

Lemma get_category_data_ok (df : DataFrame) (S : list string) :
  is_table df = true ->
  get_category_data df S =
  Ok (match S with
      | [] => df
      | _ => Frame (columns df) (filter (fun r => cell_in S (r "categories")) (rows df))
      end).
Proof.
  intros Ht. unfold get_category_data. destruct S as [|s S]; [reflexivity|].
  rewrite getitem_ok by schema_column. simpl.
  unfold loc, isin. rewrite select_map_map. reflexivity.
Qed.

Lemma get_top_10_restaurants_ok (df : DataFrame) :
  is_table df = true ->
  get_top_10_restaurants df =
  Ok (head 10 (sort_values_count_desc
                 (groupby_size (map (fun r => r "name") (rows df))))).
Proof.
  intros Ht. unfold get_top_10_restaurants.
  rewrite getitem_ok by schema_column. reflexivity.
Qed.


(** ** The loaders *)

(** Case analysis on the condition of the conditional in the goal. *)
Ltac case_if E :=
  match goal with
  | |- context [if ?b then _ else _] => destruct b eqn:E
  end.

(** The clause [except Exception] catches whatever is raised. *)
Lemma isinstance_Exception (e : exn) : isinstance e Exception = true.
Proof. reflexivity. Qed.

Lemma cell_eqb_eq (a b : cell) : cell_eqb a b = true <-> a = b.
Proof.
  destruct a as [x|], b as [y|]; simpl;
    try (split; [discriminate | congruence]); [|tauto].
  rewrite String.eqb_eq. split; congruence.
Qed.

Lemma keep_last_incl (c : string) (l : list Row) (r : Row) :
  In r (keep_last c l) -> In r l.
Proof.
  induction l as [|x l IH]; simpl; [tauto|].
  case_if E; simpl; [auto|].
  intros [H | H]; auto.
Qed.

Lemma keep_last_NoDup (c : string) (l : list Row) :
  NoDup (map (fun r => r c) (keep_last c l)).
Proof.
  induction l as [|x l IH]; simpl; [constructor|].
  case_if E; [exact IH|].
  simpl. constructor; [|exact IH].
  intros Hin. apply in_map_iff in Hin. destruct Hin as (r & Hr & Hin).
  apply keep_last_incl in Hin.
  assert (existsb (fun r' => cell_eqb (r' c) (x c)) l = true); [|congruence].
  apply existsb_exists. exists r. split; [exact Hin|]. apply cell_eqb_eq, Hr.
Qed.

Lemma keep_last_keys (c : string) (l : list Row) (r : Row) :
  In r l -> exists r', In r' (keep_last c l) /\ r' c = r c.
Proof.
  revert r. induction l as [|x l IH]; intros r; simpl; [tauto|].
  intros [-> | Hin].
  - case_if E.
    + apply existsb_exists in E. destruct E as (y & Hy & Ey).
      apply cell_eqb_eq in Ey. destruct (IH y Hy) as (r' & Hr' & Er').
      exists r'. split; [exact Hr' | congruence].
    + exists r. simpl. auto.
  - destruct (IH r Hin) as (r' & Hr' & Er').
    exists r'. split; [|exact Er'].
    case_if E; simpl; auto.
Qed.

Lemma keep_last_is_last (c : string) (l : list Row) (r : Row) :
  In r (keep_last c l) ->
  exists l1 l2, l = l1 ++ r :: l2 /\ forall x, In x l2 -> x c <> r c.
Proof.
  induction l as [|x l IH]; simpl; [tauto|].
  case_if E.
  - intros Hin. destruct (IH Hin) as (l1 & l2 & -> & H).
    exists (x :: l1), l2. split; [reflexivity | exact H].
  - simpl. intros [<- | Hin].
    + exists [], l. split; [reflexivity|].
      intros y Hy Ey.
      assert (existsb (fun r' => cell_eqb (r' c) (x c)) l = true); [|congruence].
      apply existsb_exists. exists y. split; [exact Hy|]. apply cell_eqb_eq, Ey.
    + destruct (IH Hin) as (l1 & l2 & -> & H).
      exists (x :: l1), l2. split; [reflexivity | exact H].
Qed.

Lemma set_cells_map (c : string) (f : cell -> cell) (l : list Row) :
  set_cells c l (map f (map (fun r => r c) l)) =
  map (fun r => set_cell c (f (r c)) r) l.
Proof.
  induction l as [|r l IH]; simpl; [reflexivity|]. rewrite IH. reflexivity.
Qed.

(** Variant A on a file read with the columns [id] and [categories]. *)
Lemma load_and_clean_data_ok (src : DataFrame) :
  has_column src "id" = true -> has_column src "categories" = true ->
  load_and_clean_data (Ok src) =
  (Ok (Some (Frame (columns src) (map clean (keep_last "id" (rows src))))), []).
Proof.
  intros Hid Hcat. destruct src as [cs rs].
  unfold load_and_clean_data, load_and_clean_data_try, drop_duplicates_last.
  simpl bind. rewrite Hid. simpl bind.
  rewrite getitem_ok by exact Hcat. simpl bind.
  unfold setitem. change (has_column (Frame cs (keep_last "id" rs)) "categories")
    with (has_column (Frame cs rs) "categories"). rewrite Hcat.
  unfold str_lower, str_strip. simpl rows. simpl columns.
  rewrite (map_map (option_map strip)).
  rewrite (set_cells_map "categories"
             (fun x => option_map lower (option_map strip x))).
  reflexivity.
Qed.

(** C1, for variant A: [load_and_clean_data] returns a table in which no two
    rows have the same id, every id of the file is the id of a row of the
    table, and each row of the table is the last row of the file with its
    id, its [categories] cleaned. *)
Theorem load_and_clean_data_keeps_last (src : DataFrame) :
  has_column src "id" = true -> has_column src "categories" = true ->
  exists out,
    load_and_clean_data (Ok src) = (Ok (Some out), []) /\
    NoDup (map (fun r => r "id") (rows out)) /\
    (forall r, In r (rows src) ->
       exists r', In r' (rows out) /\ r' "id" = r "id") /\
    (forall r', In r' (rows out) ->
       exists l1 r l2, rows src = l1 ++ r :: l2 /\ r' = clean r /\
                       forall x, In x l2 -> x "id" <> r "id").
Proof.
  intros Hid Hcat. eexists. split; [apply load_and_clean_data_ok; assumption|].
  simpl. repeat split.
  - rewrite map_map. simpl. apply (keep_last_NoDup "id").
  - intros r Hr. destruct (keep_last_keys "id" _ r Hr) as (r' & Hr' & E).
    exists (clean r'). split; [apply in_map, Hr' | exact E].
  - intros r' Hr'. apply in_map_iff in Hr'. destruct Hr' as (r & <- & Hr).
    destruct (keep_last_is_last "id" _ r Hr) as (l1 & l2 & E & H).
    exists l1, r, l2. auto.
Qed.

Lemma load_and_clean_data_keeps_last_witness :
  exists out,
    load_and_clean_data (Ok sample) = (Ok (Some out), []) /\
    NoDup (map (fun r => r "id") (rows out)) /\
    (forall r, In r (rows sample) ->
       exists r', In r' (rows out) /\ r' "id" = r "id") /\
    (forall r', In r' (rows out) ->
       exists l1 r l2, rows sample = l1 ++ r :: l2 /\ r' = clean r /\
                       forall x, In x l2 -> x "id" <> r "id").
Proof.
  apply (load_and_clean_data_keeps_last sample); reflexivity.
Defined.

(** C1 as stated fails on variant B: [load_data] does not drop the rows
    whose id comes again, the table it returns for the sample has the id
    [r1] twice. *)
Lemma load_data_keeps_duplicates :
  exists out,
    load_data (Ok sample) = (Ok (Some out), []) /\
    ~ NoDup (map (fun r => fst r "id") (rowsB out)).
Proof.
  eexists. split; [reflexivity|]. simpl.
  intros H. inversion H as [|x l Hnot _]. apply Hnot. simpl. auto.
Qed.

(** The handlers of variant A, by the class of the exception. *)
Lemma load_and_clean_data_err (read_csv : result DataFrame) (e : exn) :
  load_and_clean_data_try read_csv = Err e ->
  load_and_clean_data read_csv =
  (Ok None,
   [match cls e with
    | EmptyDataError => msg_no_data
    | KeyError => msg_categories_missing
    | _ => msg_unexpected e
    end]).
Proof.
  unfold load_and_clean_data. intros ->.
  destruct e as [[] m]; reflexivity.
Qed.

Lemma load_and_clean_data_try_raises (e : exn) :
  load_and_clean_data_try (Err e) = Err e.
Proof. reflexivity. Qed.

Lemma load_and_clean_data_no_categories (df : DataFrame) :
  has_column df "id" = true -> has_column df "categories" = false ->
  exists m, load_and_clean_data_try (Ok df) = Err (Raise KeyError m).
Proof.
  intros Hid Hcat. destruct df as [cs rs].
  unfold load_and_clean_data_try, drop_duplicates_last.
  simpl bind. rewrite Hid. simpl bind.
  unfold getitem.
  change (has_column (Frame cs (keep_last "id" rs)) "categories")
    with (has_column (Frame cs rs) "categories").
  rewrite Hcat. simpl. eexists. reflexivity.
Qed.

(** C10: [load_and_clean_data] lets no exception through.  Either its [try]
    block ends and it returns the table with no message, or the block raises
    and it shows one message and returns [None]; the script then computes
    the dashboard from the table returned, and when [None] is returned it
    only adds its own message. *)
Theorem load_and_clean_data_never_raises (read_csv : result DataFrame)
  (selected_province selected_city : string) (categories_selected : list string) :
  (exists df,
     load_and_clean_data_try read_csv = Ok df /\
     load_and_clean_data read_csv = (Ok (Some df), []) /\
     apply_py read_csv selected_province selected_city categories_selected =
     (d <- dashboard df selected_province selected_city categories_selected ;;
      Ok (Some d), [])) \/
  (exists e m,
     load_and_clean_data_try read_csv = Err e /\
     load_and_clean_data read_csv = (Ok None, [m]) /\
     apply_py read_csv selected_province selected_city categories_selected =
     (Ok None, [m; msg_failed])).
Proof.
  destruct (load_and_clean_data_try read_csv) as [df|e] eqn:E.
  - left. exists df. unfold apply_py, load_and_clean_data. rewrite E. auto.
  - right. exists e. eexists. unfold apply_py.
    rewrite (load_and_clean_data_err read_csv e E). auto.
Qed.

(** C3 as stated fails: a failed fetch is not reported as unavailable data,
    [load_and_clean_data] shows the generic message with the text of the
    exception. *)
Lemma fetch_failure_is_generic :
  fetch_fails fetch_refused /\
  ~ DataUnavailable (snd (load_and_clean_data fetch_refused)) /\
  LoadError "<urlopen error [Errno 111] Connection refused>"
            (snd (load_and_clean_data fetch_refused)).
Proof.
  split; [eexists; reflexivity|]. split; [|reflexivity].
  intros [H | H]; discriminate H.
Qed.

(** C3, amended.  In variant A the two specific messages are shown exactly
    when the [try] block raises [EmptyDataError] or [KeyError]: for an empty
    resource, and, of a file read with the column [id], exactly when it has
    no column [categories].  Every other exception, a failed fetch among
    them, gives the generic message with the text of the exception.  A
    message shown means that no table is returned, and no message that one
    is.  In variant B every exception gives the generic message with its
    text, and no table. *)
Theorem load_conditions (read_csv : result DataFrame) :
  (forall e, load_and_clean_data_try read_csv = Err e ->
     (DataUnavailable (snd (load_and_clean_data read_csv)) <->
      cls e = EmptyDataError \/ cls e = KeyError) /\
     (cls e <> EmptyDataError -> cls e <> KeyError ->
      LoadError (str e) (snd (load_and_clean_data read_csv)))) /\
  (resource_empty read_csv ->
   DataUnavailable (snd (load_and_clean_data read_csv))) /\
  (forall df, read_csv = Ok df -> has_column df "id" = true ->
     (DataUnavailable (snd (load_and_clean_data read_csv)) <->
      has_column df "categories" = false)) /\
  (forall m, read_csv = Err (Raise URLError m) ->
     LoadError m (snd (load_and_clean_data read_csv))) /\
  (snd (load_and_clean_data read_csv) <> [] ->
   fst (load_and_clean_data read_csv) = Ok None) /\
  (snd (load_and_clean_data read_csv) = [] ->
   exists df, fst (load_and_clean_data read_csv) = Ok (Some df)) /\
  (forall e, load_data_try read_csv = Err e ->
     load_data read_csv = (Ok None, [msg_error_loading e])).
Proof.
  assert (Hcls : forall e, load_and_clean_data_try read_csv = Err e ->
     (DataUnavailable (snd (load_and_clean_data read_csv)) <->
      cls e = EmptyDataError \/ cls e = KeyError) /\
     (cls e <> EmptyDataError -> cls e <> KeyError ->
      LoadError (str e) (snd (load_and_clean_data read_csv)))).
  { intros e E. rewrite (load_and_clean_data_err read_csv e E).
    unfold DataUnavailable, LoadError.
    destruct e as [[] m]; simpl; split;
      try (intros; congruence); try reflexivity;
      (split; [intros [H | H]; discriminate H | intros [H | H]; discriminate H])
      || (split; auto). }
  split; [exact Hcls|].
  split; [|split; [|split; [|split; [|split]]]].
  - intros [m ->]. apply (Hcls _ (load_and_clean_data_try_raises _)). auto.
  - intros df -> Hid. split.
    + intros H. destruct (has_column df "categories") eqn:Hcat; [|reflexivity].
      rewrite (load_and_clean_data_ok df Hid Hcat) in H.
      destruct H as [H | H]; discriminate H.
    + intros Hcat.
      destruct (load_and_clean_data_no_categories df Hid Hcat) as (m & E).
      apply (Hcls _ E). auto.
  - intros m ->. apply (Hcls _ (load_and_clean_data_try_raises _)); discriminate.
  - destruct (load_and_clean_data_try read_csv) as [df|e] eqn:E.
    + unfold load_and_clean_data. rewrite E. simpl. congruence.
    + rewrite (load_and_clean_data_err read_csv e E). reflexivity.
  - destruct (load_and_clean_data_try read_csv) as [df|e] eqn:E.
    + unfold load_and_clean_data. rewrite E. simpl. eauto.
    + rewrite (load_and_clean_data_err read_csv e E). discriminate.
  - intros e E. unfold load_data. rewrite E. reflexivity.
Qed.

Lemma load_conditions_witness :
  DataUnavailable
    (snd (load_and_clean_data (Err (Raise EmptyDataError "No columns to parse from file")))) /\
  LoadError "HTTP Error 404: Not Found"
    (snd (load_and_clean_data (Err (Raise URLError "HTTP Error 404: Not Found")))) /\
  (DataUnavailable (snd (load_and_clean_data (Ok sample))) <->
   has_column sample "categories" = false).
Proof.
  split; [|split].
  - apply (load_conditions (Err (Raise EmptyDataError "No columns to parse from file"))).
    eexists. reflexivity.
  - apply (load_conditions (Err (Raise URLError "HTTP Error 404: Not Found"))).
    reflexivity.
  - apply (load_conditions (Ok sample)); reflexivity.
Defined.

(** ** Counting *)

Section Counting.

Context {K : Type}.
Variable eqb : K -> K -> bool.
Hypothesis eqb_eq : forall a b, eqb a b = true <-> a = b.

Lemma eqb_same (a : K) : eqb a a = true.
Proof. apply eqb_eq. reflexivity. Qed.

Lemma distinct_In (l : list K) (x : K) : In x (distinct eqb l) <-> In x l.
Proof.
  induction l as [|y l IH]; simpl; [tauto|].
  rewrite filter_In, IH. split.
  - intros [H | [H _]]; auto.
  - intros [H | H]; [auto|].
    destruct (eqb y x) eqn:E.
    + left. apply eqb_eq, E.
    + right. split; [exact H | reflexivity].
Qed.

Lemma distinct_NoDup (l : list K) : NoDup (distinct eqb l).
Proof.
  induction l as [|y l IH]; simpl; constructor.
  - rewrite filter_In. intros [_ H]. rewrite eqb_same in H. discriminate.
  - apply NoDup_filter, IH.
Qed.

Lemma distinct_nil (l : list K) : distinct eqb l = [] <-> l = [].
Proof. destruct l; simpl; split; congruence. Qed.

(** One key of a duplicate-free list of keys equals [x], when [x] is a key. *)
Lemma indicator_sum (u : list K) (x : K) :
  NoDup u -> In x u ->
  list_sum (map (fun k => if eqb k x then 1 else 0) u) = 1.
Proof.
  induction u as [|k u IH]; simpl; [tauto|].
  intros Hnd Hin. inversion Hnd as [|? ? Hk Hu]; subst.
  destruct (eqb k x) eqn:E.
  - apply eqb_eq in E. subst k.
    assert (Z : forall v, ~ In x v ->
              list_sum (map (fun k => if eqb k x then 1 else 0) v) = 0).
    { induction v as [|a v IHv]; simpl; [reflexivity|].
      intros Hv. destruct (eqb a x) eqn:Ea.
      - apply eqb_eq in Ea. subst a. exfalso. apply Hv. auto.
      - apply IHv. intros H. apply Hv. auto. }
    rewrite (Z u Hk). reflexivity.
  - destruct Hin as [-> | Hin]; [rewrite eqb_same in E; discriminate|].
    simpl. apply IH; assumption.
Qed.

Lemma list_sum_map_add {A} (f g : A -> nat) (u : list A) :
  list_sum (map (fun k => f k + g k) u) =
  list_sum (map f u) + list_sum (map g u).
Proof. induction u as [|k u IH]; simpl; [reflexivity|]. rewrite IH. lia. Qed.

(** The counts of the keys of a list add up to its length. *)
Lemma count_sum (u l : list K) :
  NoDup u -> (forall x, In x l -> In x u) ->
  list_sum (map (fun k => count_eq eqb k l) u) = List.length l.
Proof.
  intros Hnd. induction l as [|x l IH]; simpl; intros Hin.
  - clear. induction u as [|k u IHu]; simpl; [reflexivity | exact IHu].
  - rewrite list_sum_map_add, IH by auto.
    rewrite indicator_sum by auto. reflexivity.
Qed.

Lemma total_keys (f : K -> nat) (u : list K) :
  total (map (fun k => (k, f k)) u) = list_sum (map f u).
Proof. unfold total. rewrite map_map. reflexivity. Qed.

(** The counts of a grouping sum to the number of values grouped, in
    whatever order the groups are listed. *)
Lemma total_groups (l u : list K) :
  Permutation u (distinct eqb l) ->
  total (map (fun k => (k, count_eq eqb k l)) u) = List.length l.
Proof.
  intros Hp. rewrite total_keys. apply count_sum.
  - apply (Permutation_NoDup (Permutation_sym Hp)), distinct_NoDup.
  - intros x Hx. apply (Permutation_in _ (Permutation_sym Hp)).
    apply distinct_In, Hx.
Qed.

End Counting.

Lemma insert_by_perm {A} (before : A -> A -> bool) (x : A) (l : list A) :
  Permutation (insert_by before x l) (x :: l).
Proof.
  induction l as [|y l IH]; simpl; [reflexivity|].
  destruct (before y x); [|reflexivity].
  rewrite IH. apply perm_swap.
Qed.

Lemma sort_by_perm {A} (before : A -> A -> bool) (l : list A) :
  Permutation (sort_by before l) l.
Proof.
  induction l as [|x l IH]; simpl; [reflexivity|].
  rewrite insert_by_perm, IH. reflexivity.
Qed.

Lemma total_perm {K} (t t' : Counts K) : Permutation t t' -> total t = total t'.
Proof.
  intros H. unfold total. induction H; simpl; lia.
Qed.

Lemma pair_eqb_eq (a b : string * string) : pair_eqb a b = true <-> a = b.
Proof.
  destruct a as [a1 a2], b as [b1 b2]. unfold pair_eqb. simpl.
  rewrite andb_true_iff, !String.eqb_eq. split; [intros [-> ->] | intros [= -> ->]]; auto.
Qed.

Lemma total_value_counts (s : Series) :
  total (value_counts s) = List.length (dropna s).
Proof.
  unfold value_counts, sort_values_count_desc.
  rewrite (total_perm _ _ (sort_by_perm _ _)).
  apply (total_groups String.eqb String.eqb_eq). reflexivity.
Qed.

Lemma total_groupby_size (s : Series) :
  total (groupby_size s) = List.length (dropna s).
Proof.
  unfold groupby_size.
  apply (total_groups String.eqb String.eqb_eq), sort_by_perm.
Qed.

Lemma total_groupby_size2 (a b : Series) :
  total (groupby_size2 a b) = List.length (dropna2 a b).
Proof.
  unfold groupby_size2.
  apply (total_groups pair_eqb pair_eqb_eq), sort_by_perm.
Qed.

Lemma dropna_all (s : Series) :
  (forall x, In x s -> x <> NaN) -> dropna s = map (fun x => match x with Some v => v | None => "" end) s.
Proof.
  induction s as [|[v|] s IH]; simpl; intros H; [reflexivity| |].
  - rewrite IH; auto.
  - exfalso. apply (H None); auto.
Qed.

Lemma dropna_le (s : Series) : List.length (dropna s) <= List.length s.
Proof. induction s as [|[v|] s IH]; simpl; lia. Qed.

Lemma dropna_app (a b : Series) : dropna (a ++ b) = dropna a ++ dropna b.
Proof.
  induction a as [|[v|] a IH]; simpl; [reflexivity| |]; rewrite IH; reflexivity.
Qed.

(** The tokens of the exploded view. *)
Lemma explode_row_tokens (r : Row * cells) :
  List.length (dropna (map (fun x => x "categories") (explode_row r))) = tokens r.
Proof.
  destruct r as [r c]. unfold explode_row, tokens. simpl.
  destruct c as [[|t ts]|]; try reflexivity.
  generalize (t :: ts). intros toks.
  induction toks as [|a toks IHt]; simpl; [reflexivity|].
  f_equal. exact IHt.
Qed.

Lemma explode_tokens (l : list (Row * cells)) :
  List.length (dropna (map (fun r => r "categories") (flat_map explode_row l))) =
  list_sum (map tokens l).
Proof.
  induction l as [|r l IH]; [reflexivity|].
  cbn [flat_map map].
  rewrite map_app, dropna_app, length_app.
  change (list_sum (tokens r :: map tokens l))
    with (tokens r + list_sum (map tokens l)).
  f_equal; [apply explode_row_tokens | exact IH].
Qed.

Lemma dropna_length_all (s : Series) :
  (forall x, In x s -> x <> NaN) -> List.length (dropna s) = List.length s.
Proof.
  intros H. rewrite (dropna_all s H). apply length_map.
Qed.

Lemma getitemB_ok (df : FrameB) (c : string) :
  has_columnB df c = true -> getitemB df c = Ok (map (fun r => fst r c) (rowsB df)).
Proof. unfold getitemB. intros ->. reflexivity. Qed.

Lemma category_countsB_ok (df : FrameB) :
  has_columnB df "categories" = true ->
  category_countsB df =
  Ok (value_counts (map (fun r => r "categories") (flat_map explode_row (rowsB df)))).
Proof.
  intros H. unfold category_countsB.
  rewrite getitem_ok by exact H. reflexivity.
Qed.


(** ** Sorting *)

Section Stable.

Context {A : Type}.
Variable before : A -> A -> bool.
Variable R : A -> A -> Prop.

Hypothesis before_asym : forall x y, before x y = true -> before y x = false.
Hypothesis before_left : forall x y z,
  before z x = true -> before y x = false -> before z y = true.

Lemma insert_by_In (x y : A) (l : list A) :
  In y (insert_by before x l) -> y = x \/ In y l.
Proof.
  intros H. apply (Permutation_in _ (insert_by_perm before x l)) in H.
  destruct H; auto.
Qed.

Lemma insert_by_placed (x : A) (l : list A) :
  StronglySorted (placed before R) l -> Forall (R x) l ->
  StronglySorted (placed before R) (insert_by before x l).
Proof.
  induction l as [|y l IH]; simpl; intros Hs Hx.
  - constructor; constructor.
  - inversion Hs as [|? ? Hl Hy]; subst.
    inversion Hx as [|? ? Rxy Rxl]; subst.
    destruct (before y x) eqn:E.
    + constructor; [apply IH; assumption|].
      apply Forall_forall. intros z Hz.
      apply insert_by_In in Hz. destruct Hz as [-> | Hz].
      * left. exact E.
      * rewrite Forall_forall in Hy. apply Hy, Hz.
    + constructor; [exact Hs|].
      constructor; [right; auto|].
      rewrite Forall_forall in Hy, Rxl |- *. intros z Hz.
      right. split; [|apply Rxl, Hz].
      destruct (before z x) eqn:Ez; [|reflexivity].
      pose proof (before_left x y z Ez E) as Hzy.
      destruct (Hy z Hz) as [Hyz | [Hyz _]].
      * apply before_asym in Hyz. congruence.
      * congruence.
Qed.

(** The sort is stable: it places the elements by [before], and those it
    does not tell apart in the order they had. *)
Lemma sort_by_placed (l : list A) :
  StronglySorted R l -> StronglySorted (placed before R) (sort_by before l).
Proof.
  induction l as [|x l IH]; simpl; intros Hs; [constructor|].
  inversion Hs as [|? ? Hl Hx]; subst.
  apply insert_by_placed; [apply IH, Hl|].
  rewrite Forall_forall in Hx |- *. intros y Hy. apply Hx.
  apply (Permutation_in _ (sort_by_perm before l)), Hy.
Qed.

End Stable.

Lemma StronglySorted_weaken {A} (P Q : A -> A -> Prop) (l : list A) :
  (forall a b, P a b -> Q a b) -> StronglySorted P l -> StronglySorted Q l.
Proof.
  intros H. induction 1 as [|x l Hl IH Hx]; constructor; [exact IH|].
  rewrite Forall_forall in Hx |- *. auto.
Qed.

Lemma StronglySorted_any {A} (l : list A) : StronglySorted (fun _ _ => True) l.
Proof.
  induction l; constructor; [assumption|]. apply Forall_forall. auto.
Qed.

Lemma StronglySorted_map {A B} (f : A -> B) (P : B -> B -> Prop) (l : list A) :
  StronglySorted (fun a b => P (f a) (f b)) l -> StronglySorted P (map f l).
Proof.
  induction 1 as [|x l Hl IH Hx]; simpl; constructor; [exact IH|].
  rewrite Forall_forall in Hx |- *. intros y Hy.
  apply in_map_iff in Hy. destruct Hy as (a & <- & Ha). auto.
Qed.

Lemma StronglySorted_firstn {A} (P : A -> A -> Prop) (n : nat) (l : list A) :
  StronglySorted P l -> StronglySorted P (firstn n l).
Proof.
  revert l. induction n as [|n IH]; intros l Hs; simpl; [constructor|].
  destruct l as [|x l]; [constructor|].
  inversion Hs as [|? ? Hl Hx]; subst. constructor; [apply IH, Hl|].
  rewrite Forall_forall in Hx |- *. intros y Hy. apply Hx.
  revert Hy. clear. revert l. induction n as [|n IHn]; intros [|a l]; simpl; try tauto.
  intros [H | H]; auto.
Qed.

Lemma StronglySorted_NoDup {A} (P : A -> A -> Prop) (l : list A) :
  StronglySorted P l -> NoDup l ->
  StronglySorted (fun a b => P a b /\ a <> b) l.
Proof.
  induction 1 as [|x l Hl IH Hx]; intros Hnd; constructor;
    inversion Hnd as [|? ? Hnot Hnd']; subst; [apply IH, Hnd'|].
  rewrite Forall_forall in Hx |- *. intros y Hy. split; [auto|].
  intros ->. contradiction.
Qed.

(** The order of the names. *)
Lemma ltb_asym (x y : string) : String.ltb x y = true -> String.ltb y x = false.
Proof.
  unfold String.ltb. rewrite (String.compare_antisym x y).
  destruct (String.compare y x); simpl; congruence.
Qed.

Lemma ltb_left (x y z : string) :
  String.ltb z x = true -> String.ltb y x = false -> String.ltb z y = true.
Proof.
  unfold String.ltb. intros Hzx Hyx.
  destruct (String.compare z x) eqn:Ezx; try discriminate.
  destruct (String.compare y x) eqn:Eyx; try discriminate.
  - apply String.compare_eq_iff in Eyx. subst y. rewrite Ezx. reflexivity.
  - assert (Exy : String.compare x y = Lt).
    { rewrite String.compare_antisym, Eyx. reflexivity. }
    apply String_as_OT.cmp_lt in Ezx, Exy.
    pose proof (String_as_OT.lt_trans _ _ _ Ezx Exy) as H.
    apply String_as_OT.cmp_lt in H. unfold String_as_OT.cmp in H.
    rewrite H. reflexivity.
Qed.

Lemma ltb_total (x y : string) :
  String.ltb y x = false -> x <> y -> String.ltb x y = true.
Proof.
  unfold String.ltb. rewrite (String.compare_antisym y x).
  destruct (String.compare x y) eqn:E; simpl; try congruence.
  apply String.compare_eq_iff in E. congruence.
Qed.

(** [sorted] of distinct names lists them in the strict order. *)
Lemma sort_by_ltb_sorted (l : list string) :
  NoDup l ->
  StronglySorted (fun a b => String.ltb a b = true) (sort_by String.ltb l).
Proof.
  intros Hnd.
  pose proof (sort_by_placed String.ltb (fun _ _ => True) ltb_asym ltb_left l
                (StronglySorted_any l)) as Hs.
  apply (StronglySorted_NoDup _ _) in Hs;
    [| apply (Permutation_NoDup (Permutation_sym (sort_by_perm _ l))), Hnd].
  revert Hs. apply StronglySorted_weaken.
  intros a b [[H | [H _]] Hab]; [exact H | apply ltb_total; assumption].
Qed.

Lemma by_count_desc_asym {K} (x y : K * nat) :
  by_count_desc x y = true -> by_count_desc y x = false.
Proof.
  unfold by_count_desc. rewrite Nat.ltb_lt, Nat.ltb_ge. lia.
Qed.

Lemma by_count_desc_left {K} (x y z : K * nat) :
  by_count_desc z x = true -> by_count_desc y x = false ->
  by_count_desc z y = true.
Proof.
  unfold by_count_desc. rewrite !Nat.ltb_lt, Nat.ltb_ge. lia.
Qed.

Lemma groupby_size_sorted (s : Series) :
  StronglySorted (fun a b => String.ltb (fst a) (fst b) = true) (groupby_size s).
Proof.
  unfold groupby_size. apply StronglySorted_map. simpl.
  apply sort_by_ltb_sorted, (distinct_NoDup String.eqb String.eqb_eq).
Qed.

Lemma total_firstn {K} (n : nat) (t : Counts K) : total (firstn n t) <= total t.
Proof.
  unfold total. revert t. induction n as [|n IH]; intros [|x t]; simpl; try lia.
  specialize (IH t). lia.
Qed.

(** The table of the ten most common names: its order and its counts. *)
Lemma top_10_sorted (s : Series) (t : Counts string) :
  t = head 10 (sort_values_count_desc (groupby_size s)) ->
  List.length t <= 10 /\
  StronglySorted count_then_name t /\
  total t <= List.length s.
Proof.
  intros ->. unfold head. split; [apply firstn_le_length|]. split.
  - apply StronglySorted_firstn. unfold sort_values_count_desc.
    pose proof (sort_by_placed by_count_desc _
                  by_count_desc_asym by_count_desc_left _
                  (groupby_size_sorted s)) as H.
    revert H. apply StronglySorted_weaken.
    unfold placed, by_count_desc, count_then_name.
    intros a b [H | [H Hn]].
    + left. apply Nat.ltb_lt, H.
    + apply Nat.ltb_ge in H.
      destruct (Nat.eq_dec (snd a) (snd b)) as [E | E]; [right; auto | left; lia].
  - etransitivity; [apply total_firstn|].
    unfold sort_values_count_desc.
    rewrite (total_perm _ _ (sort_by_perm _ _)), total_groupby_size.
    apply dropna_le.
Qed.

(** C4 as stated fails: of two names that come once each,
    [get_top_10_restaurants] lists the smaller name first, although the
    other is the first in the table; the table with the two rows exchanged
    gives the same list, the grouping has forgotten the order of the rows.
    So whatever order a sort gives to the two groups of equal count, it gives
    it for both tables, and it is not the order of first appearance in one
    of them. *)
Lemma top_10_ties_not_first_seen :
  exists t,
    get_top_10_restaurants two_chains = Ok t /\
    get_top_10_restaurants two_chains_exchanged = Ok t /\
    dropna (map (fun r => r "name") (rows two_chains)) = ["Wendy's"; "Arby's"] /\
    t = [("Arby's", 1); ("Wendy's", 1)] /\
    ~ ties_by_first_seen (dropna (map (fun r => r "name") (rows two_chains))) t /\
    groupby_size (map (fun r => r "name") (rows two_chains)) =
    groupby_size (map (fun r => r "name") (rows two_chains_exchanged)) /\
    forall t',
      Permutation (groupby_size (map (fun r => r "name") (rows two_chains))) t' ->
      ~ (ties_by_first_seen
           (dropna (map (fun r => r "name") (rows two_chains))) (head 10 t') /\
         ties_by_first_seen
           (dropna (map (fun r => r "name") (rows two_chains_exchanged)))
           (head 10 t')).
Proof.
  eexists. split; [reflexivity|]. split; [reflexivity|].
  split; [reflexivity|]. split; [reflexivity|]. split; [|split; [reflexivity|]].
  - intros H. specialize (H 0 1 ("Arby's", 1) ("Wendy's", 1)).
    simpl in H. specialize (H (Nat.lt_0_succ 0) eq_refl eq_refl eq_refl). lia.
  - intros t' Hp.
    change (groupby_size (map (fun r => r "name") (rows two_chains)))
      with [("Arby's", 1); ("Wendy's", 1)] in Hp.
    apply Permutation_length_2_inv in Hp. intros [H1 H2].
    destruct Hp as [-> | ->].
    + specialize (H1 0 1 ("Arby's", 1) ("Wendy's", 1)).
      simpl in H1. specialize (H1 (Nat.lt_0_succ 0) eq_refl eq_refl eq_refl). lia.
    + specialize (H2 0 1 ("Wendy's", 1) ("Arby's", 1)).
      simpl in H2. specialize (H2 (Nat.lt_0_succ 0) eq_refl eq_refl eq_refl). lia.
Qed.

(** C4, amended: on a table [get_top_10_restaurants] returns at most ten
    rows, in the descending order of the counts, and the counts returned sum
    to at most the number of rows of the table.  Nothing is said of the
    order of rows of equal count. *)
Theorem get_top_10_restaurants_spec (df : DataFrame) :
  is_table df = true ->
  exists t,
    get_top_10_restaurants df = Ok t /\
    List.length t <= 10 /\
    StronglySorted (fun a b => snd b <= snd a) t /\
    total t <= List.length (rows df).
Proof.
  intros Ht. rewrite (get_top_10_restaurants_ok df Ht).
  eexists. split; [reflexivity|].
  destruct (top_10_sorted (map (fun r => r "name") (rows df)) _ eq_refl)
    as (H1 & H2 & H3).
  rewrite length_map in H3.
  repeat split; try assumption.
  revert H2. apply StronglySorted_weaken.
  unfold count_then_name. intros a b [H | [H _]]; lia.
Qed.

Lemma get_top_10_restaurants_witness :
  exists t,
    get_top_10_restaurants restaurants = Ok t /\
    List.length t <= 10 /\
    StronglySorted (fun a b => snd b <= snd a) t /\
    total t <= List.length (rows restaurants).
Proof.
  apply (get_top_10_restaurants_spec restaurants). reflexivity.
Defined.

(** ** The average *)

Lemma is_tableB_has (T : FrameB) (c : string) :
  is_tableB T = true -> In c schema -> has_columnB T c = true.
Proof.
  unfold is_tableB. rewrite forallb_forall. auto.
Qed.

Lemma true_div_spec (a b : nat) :
  match true_div a b with
  | Ok q => b <> 0 /\ (q == inject_Z (Z.of_nat a) / inject_Z (Z.of_nat b))%Q
  | Err e => b = 0 /\ e = Raise ZeroDivisionError "division by zero"
  end.
Proof.
  destruct b as [|b]; [simpl; auto|]. unfold true_div.
  split; [discriminate|].
  rewrite Qmake_Qdiv.
  replace (Z.pos (Pos.of_nat (S b))) with (Z.of_nat (S b)); [reflexivity|].
  rewrite <- Pos.of_nat_succ, Zpos_P_of_succ_nat, Nat2Z.inj_succ. reflexivity.
Qed.

(** C7: for a column [dim] of texts, [len(T) / len(T[dim].unique())] is the
    number of rows divided by the number of distinct values of the column; it
    raises, and then [ZeroDivisionError], exactly when that number is zero,
    which is when the table has no rows; four rows of two distinct values
    give 2. *)
Theorem avg_per_spec (T : FrameB) (dim : string) :
  has_columnB T dim = true -> dim <> "categories" ->
  (groups dim T = 0 <-> rowsB T = []) /\
  ((exists e, avg_per dim T = Err e) <-> groups dim T = 0) /\
  (groups dim T = 0 ->
   avg_per dim T = Err (Raise ZeroDivisionError "division by zero")) /\
  (groups dim T <> 0 ->
   exists q, avg_per dim T = Ok q /\
     (q == inject_Z (Z.of_nat (List.length (rowsB T))) /
           inject_Z (Z.of_nat (groups dim T)))%Q) /\
  (List.length (rowsB T) = 4 -> groups dim T = 2 ->
   exists q, avg_per dim T = Ok q /\ (q == 2)%Q).
Proof.
  intros Hc _. unfold avg_per. rewrite (getitemB_ok T dim Hc). simpl bind.
  fold (groups dim T).
  pose proof (true_div_spec (List.length (rowsB T)) (groups dim T)) as Hd.
  split; [|split; [|split; [|split]]].
  - unfold groups, unique. rewrite length_zero_iff_nil.
    rewrite (distinct_nil cell_eqb). split.
    + apply map_eq_nil.
    + intros ->. reflexivity.
  - destruct (true_div _ _) as [q|e]; split.
    + intros [e H]. discriminate H.
    + intros H. exfalso. apply (proj1 Hd), H.
    + intros _. apply Hd.
    + intros _. eauto.
  - intros H. destruct (true_div _ _) as [q|e].
    + exfalso. apply (proj1 Hd), H.
    + f_equal. apply Hd.
  - intros H. destruct (true_div _ _) as [q|e].
    + exists q. split; [reflexivity | apply Hd].
    + exfalso. apply H, Hd.
  - intros Hn Hg. rewrite Hn, Hg. simpl. eexists. split; reflexivity.
Qed.

Lemma avg_per_witness :
  (groups "city" no_rowsB = 0 <-> rowsB no_rowsB = []) /\
  avg_per "city" no_rowsB = Err (Raise ZeroDivisionError "division by zero") /\
  (exists q, avg_per "city" sampleB = Ok q /\
     (q == inject_Z (Z.of_nat (List.length (rowsB sampleB))) /
           inject_Z (Z.of_nat (groups "city" sampleB)))%Q) /\
  (exists q, avg_per "city" four_rows = Ok q /\ (q == 2)%Q).
Proof.
  split; [|split; [|split]].
  - apply (avg_per_spec no_rowsB "city"); [reflexivity | discriminate].
  - apply (avg_per_spec no_rowsB "city"); [reflexivity | discriminate | reflexivity].
  - apply (avg_per_spec sampleB "city"); [reflexivity | discriminate | discriminate].
  - apply (avg_per_spec four_rows "city"); [reflexivity | discriminate | reflexivity ..].
Defined.

(** ** The script of variant A *)

Lemma In_dropna (k : string) (s : Series) : In k (dropna s) <-> In (Some k) s.
Proof.
  induction s as [|[v|] s IH]; simpl; [tauto| |].
  - rewrite IH. split; intros [H | H]; auto; [left | left]; congruence.
  - rewrite IH. split; [auto|]. intros [H | H]; [discriminate | exact H].
Qed.

Lemma filter_filter {A} (f g : A -> bool) (l : list A) :
  filter f (filter g l) = filter (fun x => g x && f x) l.
Proof.
  induction l as [|x l IH]; simpl; [reflexivity|].
  destruct (g x); simpl; [destruct (f x)|]; rewrite IH; reflexivity.
Qed.

Lemma view_all (f : Row -> bool) (df : DataFrame) :
  (forall r, In r (rows df) -> f r = true) -> view f df = df.
Proof.
  intros H. unfold view. rewrite (filter_all f (rows df) H). apply frame_eta.
Qed.

Lemma view_view (f g : Row -> bool) (df : DataFrame) :
  view f (view g df) = view (fun r => g r && f r) df.
Proof. unfold view. simpl. rewrite filter_filter. reflexivity. Qed.

Lemma view_ext (f g : Row -> bool) (df : DataFrame) :
  (forall r, In r (rows df) -> f r = g r) -> view f df = view g df.
Proof.
  intros H. unfold view. f_equal.
  induction (rows df) as [|x l IH]; simpl; [reflexivity|].
  rewrite (H x (or_introl eq_refl)), IH; [reflexivity|].
  intros r Hr. apply H. right. exact Hr.
Qed.

Lemma view_idempotent (f : Row -> bool) (df : DataFrame) :
  view f (view f df) = view f df.
Proof.
  rewrite view_view. apply view_ext. intros r _. destruct (f r); reflexivity.
Qed.

Lemma is_table_view (f : Row -> bool) (df : DataFrame) :
  is_table (view f df) = is_table df.
Proof. reflexivity. Qed.

(** Each filter of variant A, on a table, is the view of its condition. *)
Lemma filter_data_by_province_view (df : DataFrame) (province : string) :
  is_table df = true ->
  filter_data_by_province df province = Ok (view (province_condition province) df).
Proof.
  intros Ht. unfold filter_data_by_province, province_condition.
  destruct (String.eqb province "All"); simpl.
  - rewrite view_all by reflexivity. reflexivity.
  - rewrite getitem_ok by schema_column. simpl.
    unfold loc, series_eq, view. rewrite select_map_map. reflexivity.
Qed.

Lemma filter_data_by_city_province_view (df : DataFrame) (city province : string) :
  is_table df = true ->
  filter_data_by_city_province df city province =
  Ok (view (city_province_condition city province) df).
Proof.
  intros Ht. unfold filter_data_by_city_province, city_province_condition, view.
  destruct (String.eqb province "All") eqn:Ep;
    destruct (String.eqb city "All") eqn:Ec; simpl.
  - rewrite filter_all by reflexivity. rewrite frame_eta. reflexivity.
  - rewrite getitem_ok by schema_column. simpl.
    unfold loc, series_eq, str_lower. rewrite !map_map, select_map.
    do 2 f_equal. apply filter_ext. intros r.
    rewrite city_mask, andb_true_r. reflexivity.
  - rewrite getitem_ok by schema_column. simpl.
    unfold loc, series_eq. rewrite select_map_map. reflexivity.
  - rewrite !getitem_ok by schema_column. simpl.
    unfold loc, series_eq, str_lower. rewrite !map_map.
    rewrite (select_mask_and
               (fun r => cell_is (lower city) (option_map lower (r "city")))
               (fun r => cell_is province (r "province"))).
    do 2 f_equal. apply filter_ext. intros r. rewrite city_mask. reflexivity.
Qed.

Lemma get_category_data_view (df : DataFrame) (S : list string) :
  is_table df = true ->
  get_category_data df S = Ok (view (category_condition S) df).
Proof.
  intros Ht. rewrite (get_category_data_ok df S Ht). f_equal.
  unfold category_condition. destruct S; [|reflexivity].
  rewrite view_all by reflexivity. reflexivity.
Qed.

Lemma city_province_implies_province (city province : string) (r : Row) :
  city_province_condition city province r = true ->
  province_condition province r = true.
Proof.
  unfold city_province_condition, province_condition.
  rewrite andb_true_iff. tauto.
Qed.

Lemma available_cities_ok (df : DataFrame) (p : string) :
  is_table df = true ->
  available_cities df p =
  sorted (unique (map (fun r => r "city") (rows (view (province_condition p) df)))).
Proof.
  intros Ht. unfold available_cities, province_condition.
  destruct (String.eqb p "All"); simpl orb.
  - rewrite getitem_ok by schema_column. simpl bind.
    rewrite view_all by reflexivity. reflexivity.
  - rewrite getitem_ok by schema_column. simpl bind.
    rewrite getitem_ok by (change (has_column df "city" = true); schema_column).
    simpl bind.
    unfold loc, series_eq, view. rewrite select_map_map. reflexivity.
Qed.

Lemma existsb_None (l : list cell) : existsb (cell_eqb None) l = true <-> In None l.
Proof.
  rewrite existsb_exists. split.
  - intros (x & Hx & E). apply cell_eqb_eq in E. subst x. exact Hx.
  - intros H. exists None. split; [exact H | reflexivity].
Qed.

Lemma In_sorted (l cities : list cell) (c : string) :
  sorted l = Ok cities -> (In (Some c) cities <-> In (Some c) l).
Proof.
  unfold sorted. destruct l as [|x [|y l]]; try (intros [= <-]; tauto).
  set (L := x :: y :: l).
  destruct (existsb (cell_eqb None) L); [discriminate|].
  intros [= <-]. split.
  - intros H. apply in_map_iff in H. destruct H as (k & [= ->] & H).
    apply (proj1 (In_dropna c L)).
    apply (Permutation_in _ (sort_by_perm String.ltb (dropna L))), H.
  - intros H. apply in_map.
    apply (Permutation_in _ (Permutation_sym (sort_by_perm String.ltb (dropna L)))).
    exact (proj2 (In_dropna c L) H).
Qed.

Lemma sorted_raises (l : list cell) :
  (exists e, sorted l = Err e) <-> In None l /\ 2 <= List.length l.
Proof.
  unfold sorted. destruct l as [|x [|y l]].
  - split; [intros [e H]; discriminate | simpl; lia].
  - split; [intros [e H]; discriminate | simpl; lia].
  - destruct (existsb (cell_eqb None) (x :: y :: l)) eqn:E.
    + split; [|eauto]. intros _. split; [apply existsb_None, E | simpl; lia].
    + split; [intros [e H]; discriminate|]. intros [H _].
      apply existsb_None in H. congruence.
Qed.

(** [sorted] of the distinct cells of a column. *)
Lemma sorted_unique (col : list cell) :
  ((exists e, sorted (unique col) = Err e) <->
   In None col /\ exists v, In (Some v) col) /\
  ((forall x, In x col -> x <> None) ->
   exists names,
     sorted (unique col) = Ok (map Some names) /\
     StronglySorted (fun a b => String.ltb a b = true) names /\
     forall v, In v names <-> In (Some v) col).
Proof.
  assert (Hu : forall x, In x (unique col) <-> In x col)
    by (intros x; apply (distinct_In cell_eqb cell_eqb_eq)).
  assert (Hnd : NoDup (unique col)) by apply (distinct_NoDup cell_eqb cell_eqb_eq).
  split.
  - rewrite sorted_raises. split.
    + intros [Hn Hlen]. split; [apply Hu, Hn|].
      assert (Hs : exists c, In (Some c) (unique col)).
      { destruct (unique col) as [|x [|y l]]; simpl in Hlen; try lia.
        destruct x as [c|]; [exists c; simpl; auto|].
        destruct y as [c|]; [exists c; simpl; auto|].
        inversion Hnd as [|? ? Hx _]. exfalso. apply Hx. simpl. auto. }
      destruct Hs as (c & Hc). exists c. apply Hu, Hc.
    + intros [Hn (c & Hc)]. apply Hu in Hn, Hc.
      split; [exact Hn|].
      destruct (unique col) as [|x [|y l]]; simpl; try lia.
      * destruct Hn.
      * destruct Hn as [-> | []]. destruct Hc as [Hc | []]. discriminate.
  - intros Hall.
    assert (Hno : ~ In None (unique col)).
    { intros H. apply Hu in H. apply (Hall None H). reflexivity. }
    exists (sort_by String.ltb (dropna (unique col))). split; [|split].
    + unfold sorted.
      destruct (unique col) as [|x [|y l]] eqn:E.
      * reflexivity.
      * destruct x as [c|]; [reflexivity|]. exfalso. apply Hno. simpl. auto.
      * destruct (existsb (cell_eqb None) (x :: y :: l)) eqn:En; [|reflexivity].
        apply existsb_None in En. contradiction.
    + apply sort_by_ltb_sorted.
      clear - Hnd. induction (unique col) as [|[c|] l IH]; simpl.
      * constructor.
      * inversion Hnd as [|? ? Hx Hl]; subst. constructor; [|apply IH, Hl].
        rewrite In_dropna. exact Hx.
      * inversion Hnd; subst. apply IH. assumption.
    + intros v. rewrite <- Hu, <- In_dropna. split; intros H.
      * apply (Permutation_in _ (sort_by_perm String.ltb _)), H.
      * apply (Permutation_in _ (Permutation_sym (sort_by_perm String.ltb _))), H.
Qed.

Lemma options_ok (c : string) (df : DataFrame) :
  has_column df c = true ->
  (forall r, In r (rows df) -> r c <> None) ->
  exists l, options c df = Ok l.
Proof.
  intros Hc Hall. unfold options. rewrite (getitem_ok df c Hc). cbn [bind].
  destruct (sorted_unique (map (fun r => r c) (rows df))) as [_ H].
  destruct H as (names & E & _); [|eauto].
  intros x Hx ->. apply in_map_iff in Hx. destruct Hx as (r & Er & Hr).
  apply (Hall r Hr Er).
Qed.

Lemma complete_cells (df : DataFrame) (r : Row) :
  complete df = true -> In r (rows df) ->
  r "province" <> None /\ r "city" <> None /\ r "categories" <> None.
Proof.
  unfold complete. rewrite forallb_forall. intros H Hr. specialize (H r Hr).
  destruct (r "province"), (r "city"), (r "categories"); try discriminate.
  repeat split; discriminate.
Qed.

Lemma available_cities_complete (df : DataFrame) (p : string) :
  is_table df = true -> complete df = true ->
  exists l, available_cities df p = Ok l.
Proof.
  intros Ht Hc. rewrite (available_cities_ok df p Ht).
  destruct (sorted_unique
              (map (fun r => r "city") (rows (view (province_condition p) df))))
    as [_ H].
  destruct H as (names & E & _); [|eauto].
  intros x Hx ->. apply in_map_iff in Hx. destruct Hx as (r & Er & Hr).
  unfold view in Hr. simpl in Hr. apply filter_In in Hr.
  apply (proj1 (proj2 (complete_cells df r Hc (proj1 Hr)))). exact Er.
Qed.

(** The script of variant A on a table: it stops where a widget cannot sort
    its options, and else computes each of its frames as a view of the loaded
    table and each table of counts from the frame it is counted from. *)
Lemma dashboard_unfold (df : DataFrame) (p c : string) (S : list string) :
  is_table df = true ->
  dashboard df p c S =
  (_ <- options "province" df ;;
   _ <- available_cities df p ;;
   _ <- options "categories" df ;;
   Ok {| filtered_df := view (province_condition p) df;
         filtered_city_province_df := view (city_province_condition c p) df;
         province_counts :=
           value_counts (map (fun r => r "province")
                             (rows (view (city_province_condition c p) df)));
         category_data := view (category_condition S) df;
         category_counts :=
           groupby_size2
             (map (fun r => r "province") (rows (view (category_condition S) df)))
             (map (fun r => r "categories") (rows (view (category_condition S) df)));
         type_counts :=
           value_counts (map (fun r => r "categories")
                             (rows (view (category_condition S) df)));
         top_10_restaurants_data :=
           head 10 (sort_values_count_desc
                      (groupby_size (map (fun r => r "name")
                                         (rows (view (province_condition p) df)))));
         top_10_data :=
           view (fun r =>
                   cell_in
                     (map fst
                        (head 10 (sort_values_count_desc
                                    (groupby_size
                                       (map (fun r => r "name")
                                            (rows (view (province_condition p) df)))))))
                     (r "name")) df |}).
Proof.
  intros Ht. unfold dashboard.
  destruct (options "province" df) as [po|e]; [|reflexivity]. cbn [bind].
  rewrite (filter_data_by_province_view df p Ht). cbn [bind].
  destruct (available_cities df p) as [ac|e]; [|reflexivity]. cbn [bind].
  rewrite (filter_data_by_city_province_view (view (province_condition p) df) c p)
    by (rewrite is_table_view; exact Ht).
  cbn [bind].
  rewrite (getitem_ok (view _ (view _ df)) "province")
    by (apply is_table_has; [rewrite !is_table_view; exact Ht | simpl; tauto]).
  cbn [bind].
  destruct (options "categories" df) as [co|e]; [|reflexivity]. cbn [bind].
  rewrite (get_category_data_view df S Ht). cbn [bind].
  rewrite !(getitem_ok (view (category_condition S) df))
    by (apply is_table_has; [rewrite is_table_view; exact Ht | simpl; tauto]).
  cbn [bind].
  rewrite (get_top_10_restaurants_ok (view (province_condition p) df))
    by (rewrite is_table_view; exact Ht).
  cbn [bind].
  rewrite (getitem_ok df "name") by schema_column. cbn [bind].
  assert (E : view (city_province_condition c p) (view (province_condition p) df) =
              view (city_province_condition c p) df).
  { rewrite view_view. apply view_ext. intros r _.
    destruct (city_province_condition c p r) eqn:Hc.
    - rewrite (city_province_implies_province c p r Hc). reflexivity.
    - apply andb_false_r. }
  rewrite E. f_equal. f_equal.
  unfold loc, isin, view. rewrite select_map_map. reflexivity.
Qed.

(** What a run of the script that reaches its end has computed. *)
Lemma dashboard_views (df : DataFrame) (p c : string) (S : list string)
  (d : Dashboard) :
  is_table df = true -> dashboard df p c S = Ok d ->
  filtered_df d = view (province_condition p) df /\
  filtered_city_province_df d = view (city_province_condition c p) df /\
  category_data d = view (category_condition S) df /\
  top_10_data d =
    view (fun r => cell_in (map fst (top_10_restaurants_data d)) (r "name")) df /\
  province_counts d =
    value_counts (map (fun r => r "province") (rows (filtered_city_province_df d))) /\
  category_counts d =
    groupby_size2 (map (fun r => r "province") (rows (category_data d)))
                  (map (fun r => r "categories") (rows (category_data d))) /\
  type_counts d =
    value_counts (map (fun r => r "categories") (rows (category_data d))) /\
  top_10_restaurants_data d =
    head 10 (sort_values_count_desc
               (groupby_size (map (fun r => r "name") (rows (filtered_df d))))).
Proof.
  intros Ht H. rewrite (dashboard_unfold df p c S Ht) in H.
  destruct (options "province" df) as [po|e]; [|discriminate]. cbn [bind] in H.
  destruct (available_cities df p) as [ac|e]; [|discriminate]. cbn [bind] in H.
  destruct (options "categories" df) as [co|e]; [|discriminate]. cbn [bind] in H.
  injection H as <-. cbn. repeat split.
Qed.

(** On a complete table the script reaches its end. *)
Lemma dashboard_complete (df : DataFrame) (p c : string) (S : list string) :
  is_table df = true -> complete df = true ->
  exists d, dashboard df p c S = Ok d.
Proof.
  intros Ht Hc. rewrite (dashboard_unfold df p c S Ht).
  destruct (options_ok "province" df) as (po & ->);
    [schema_column | intros r Hr; apply (proj1 (complete_cells df r Hc Hr)) |].
  destruct (available_cities_complete df p Ht Hc) as (ac & ->).
  destruct (options_ok "categories" df) as (co & ->);
    [schema_column
    | intros r Hr; apply (proj2 (proj2 (complete_cells df r Hc Hr))) |].
  cbn [bind]. eauto.
Qed.

Lemma category_condition_iff (S : list string) (r : Row) :
  category_condition S r = true <-> in_categories S r.
Proof.
  unfold category_condition, in_categories. destruct S as [|a S]; [tauto|].
  unfold cell_in. destruct (r "categories") as [v|].
  - rewrite existsb_exists. split.
    + intros (x & Hx & E). apply String.eqb_eq in E. subst x. right. eauto.
    + intros [H | (x & [= <-] & Hx)]; [discriminate|].
      exists v. split; [exact Hx | apply String.eqb_refl].
  - split; [discriminate|]. intros [H | (x & H & _)]; discriminate.
Qed.

(** C9: in variant A [get_category_data] returns, of the loaded table, the
    table itself when no category is selected, and else exactly its rows
    whose [categories] is one of the selected, in their order.  The category
    view of every run of the script that reaches it is this table, whatever
    province and city are selected: two runs that differ in these only have
    the same category view.  On a complete table every run reaches it. *)
Theorem get_category_data_independent (df : DataFrame) (S : list string) :
  is_table df = true ->
  exists out,
    get_category_data df S = Ok out /\
    columns out = columns df /\
    selected (in_categories S) (rows df) (rows out) /\
    (S = [] -> out = df) /\
    (forall p c d, dashboard df p c S = Ok d -> category_data d = out) /\
    (forall p1 c1 p2 c2 d1 d2,
       dashboard df p1 c1 S = Ok d1 -> dashboard df p2 c2 S = Ok d2 ->
       category_data d1 = category_data d2) /\
    (complete df = true -> forall p c, exists d, dashboard df p c S = Ok d).
Proof.
  intros Ht. exists (view (category_condition S) df).
  assert (Hrun : forall p c d, dashboard df p c S = Ok d ->
                   category_data d = view (category_condition S) df).
  { intros p c d Hd. apply (dashboard_views df p c S d Ht Hd). }
  split; [apply get_category_data_view, Ht|]. split; [reflexivity|].
  split; [apply filter_selected, category_condition_iff|].
  split; [intros ->; apply view_all; reflexivity|].
  split; [exact Hrun|]. split.
  - intros p1 c1 p2 c2 d1 d2 H1 H2.
    rewrite (Hrun p1 c1 d1 H1), (Hrun p2 c2 d2 H2). reflexivity.
  - intros Hc p c. apply dashboard_complete; assumption.
Qed.

Lemma get_category_data_independent_witness :
  get_category_data restaurants ["burgers"] =
    Ok (Frame schema [wendys_austin; wendys_dallas]) /\
  selected (in_categories ["burgers"]) (rows restaurants)
           [wendys_austin; wendys_dallas] /\
  exists d1 d2,
    dashboard restaurants "TX" "Austin" ["burgers"] = Ok d1 /\
    dashboard restaurants "NY" "All" ["burgers"] = Ok d2 /\
    category_data d1 = Frame schema [wendys_austin; wendys_dallas] /\
    category_data d2 = Frame schema [wendys_austin; wendys_dallas].
Proof.
  destruct (get_category_data_independent restaurants ["burgers"] eq_refl)
    as (out & Hout & _ & Hsel & _ & Hrun & _ & Hall).
  assert (E : out = Frame schema [wendys_austin; wendys_dallas]).
  { assert (H : get_category_data restaurants ["burgers"] =
                Ok (Frame schema [wendys_austin; wendys_dallas])) by reflexivity.
    rewrite Hout in H. injection H as H. exact H. }
  subst out. split; [exact Hout|]. split; [exact Hsel|].
  destruct (Hall eq_refl "TX" "Austin") as (d1 & H1).
  destruct (Hall eq_refl "NY" "All") as (d2 & H2).
  exists d1, d2. split; [exact H1|]. split; [exact H2|].
  split; [apply (Hrun _ _ _ H1) | apply (Hrun _ _ _ H2)].
Defined.

(** C2 as stated fails on variant B: the file of one restaurant with the
    categories "Burgers and Fries" loads as a table of one row, and the
    counts of its exploded categories sum to two. *)
Lemma exploded_counts_exceed_rows :
  exists T vc,
    load_data (Ok one_row) = (Ok (Some T), []) /\
    category_countsB T = Ok vc /\
    List.length (rowsB T) = 1 /\
    total vc = 2 /\
    total vc <> List.length (rowsB T).
Proof.
  eexists. eexists. split; [reflexivity|]. split; [reflexivity|].
  simpl. repeat split. discriminate.
Qed.

(** C2, amended.  The counts of an aggregation sum to the number of rows,
    of the view it is computed from, whose grouping cells are not NaN, which
    is the number of rows of the view when no such cell is NaN: so for
    [value_counts] and for the grouping by two columns, and so for the counts
    of every run of the script of variant A that reaches its end, as every
    run on a complete table does.  In variant B the category counts are those
    of the exploded view: they sum to the number of category tokens of the
    rows of the table, and the state counts to the number of its rows that
    have a state. *)
Theorem counts_sum_to_present_rows :
  (forall s, total (value_counts s) = List.length (dropna s) /\
             ((forall x, In x s -> x <> NaN) ->
              total (value_counts s) = List.length s)) /\
  (forall a b, total (groupby_size2 a b) = List.length (dropna2 a b)) /\
  (forall df p c S d, is_table df = true -> dashboard df p c S = Ok d ->
     total (province_counts d) = present "province" (filtered_city_province_df d) /\
     total (type_counts d) = present "categories" (category_data d) /\
     total (category_counts d) =
     List.length (dropna2 (map (fun r => r "province") (rows (category_data d)))
                          (map (fun r => r "categories") (rows (category_data d))))) /\
  (forall df p c S, is_table df = true -> complete df = true ->
     exists d, dashboard df p c S = Ok d) /\
  (forall T, is_tableB T = true ->
     exists vc dc,
       category_countsB T = Ok vc /\
       total vc = list_sum (map tokens (rowsB T)) /\
       density T = Ok dc /\
       total dc = List.length (dropna (map (fun r => fst r "province") (rowsB T)))).
Proof.
  split; [|split; [|split; [|split]]].
  - intros s. split; [apply total_value_counts|].
    intros H. rewrite total_value_counts. apply dropna_length_all, H.
  - apply total_groupby_size2.
  - intros df p c S d Ht Hd.
    destruct (dashboard_views df p c S d Ht Hd) as (_ & _ & _ & _ & E1 & E2 & E3 & _).
    rewrite E1, E2, E3, !total_value_counts, total_groupby_size2.
    repeat split.
  - intros df p c S. apply dashboard_complete.
  - intros T Ht.
    assert (Hc : has_columnB T "categories" = true).
    { unfold is_tableB in Ht. rewrite forallb_forall in Ht. apply Ht. simpl. tauto. }
    assert (Hp : has_columnB T "province" = true).
    { unfold is_tableB in Ht. rewrite forallb_forall in Ht. apply Ht. simpl. tauto. }
    eexists. eexists. split; [apply category_countsB_ok, Hc|].
    split; [rewrite total_value_counts; apply explode_tokens|].
    unfold density. rewrite (getitemB_ok T "province" Hp).
    split; [reflexivity|]. apply total_value_counts.
Qed.

Lemma counts_sum_to_present_rows_witness :
  total (value_counts [Some "CA"; Some "CA"; Some "NY"]) = 3 /\
  exists d, dashboard restaurants "TX" "All" [] = Ok d /\
    total (province_counts d) = present "province" (filtered_city_province_df d) /\
    total (type_counts d) = present "categories" (category_data d) /\
    total (category_counts d) =
    List.length (dropna2 (map (fun r => r "province") (rows (category_data d)))
                         (map (fun r => r "categories") (rows (category_data d)))).
Proof.
  destruct counts_sum_to_present_rows as (H1 & _ & H3 & H4 & _).
  split.
  - apply (H1 [Some "CA"; Some "CA"; Some "NY"]).
    intros x [<- | [<- | [<- | []]]]; discriminate.
  - destruct (H4 restaurants "TX" "All" [] eq_refl eq_refl) as (d & Hd).
    exists d. split; [exact Hd|].
    apply (H3 restaurants "TX" "All" [] d eq_refl Hd).
Defined.

(** ** Tables with no rows *)

Lemma no_rows_eta (df : DataFrame) : rows df = [] -> Frame (columns df) [] = df.
Proof. destruct df as [cs rs]. simpl. intros ->. reflexivity. Qed.

Lemma locB_no_rows (T : FrameB) (m : list bool) : rowsB T = [] -> locB T m = T.
Proof. destruct T as [cs rs]. unfold locB. simpl. intros ->. reflexivity. Qed.

Lemma filter_selection_no_rows (T : FrameB) (selected_state selected_chains : list string) :
  is_tableB T = true -> rowsB T = [] ->
  filter_selection T selected_state selected_chains = Ok T.
Proof.
  intros Ht E. unfold filter_selection.
  rewrite (getitemB_ok T "province") by (apply is_tableB_has; simpl; tauto).
  simpl bind. rewrite !(locB_no_rows T _ E).
  destruct selected_chains; [reflexivity|].
  rewrite (getitemB_ok T "name") by (apply is_tableB_has; simpl; tauto).
  simpl bind. rewrite (locB_no_rows T _ E). reflexivity.
Qed.

(** C8: on a table with no rows every filter returns the table, with no
    rows, and every count is the empty table of counts; nothing raises but
    the average, which raises [ZeroDivisionError].  [df] is a table of
    variant A and [T] one of variant B. *)
Theorem no_rows_results (df : DataFrame) (T : FrameB) :
  is_table df = true -> rows df = [] ->
  is_tableB T = true -> rowsB T = [] ->
  (forall P, filter_data_by_province df P = Ok df) /\
  (forall city province, filter_data_by_city_province df city province = Ok df) /\
  (forall S, get_category_data df S = Ok df) /\
  get_top_10_restaurants df = Ok [] /\
  (forall p c S, exists d,
     dashboard df p c S = Ok d /\
     filtered_df d = df /\ filtered_city_province_df d = df /\
     category_data d = df /\ top_10_data d = df /\
     province_counts d = [] /\ category_counts d = [] /\
     type_counts d = [] /\ top_10_restaurants_data d = []) /\
  (forall selected_state selected_chains,
     filter_selection T selected_state selected_chains = Ok T) /\
  (forall s, state_of T s = Ok T) /\
  density T = Ok [] /\
  category_countsB T = Ok [] /\
  avg_per_city T = Err (Raise ZeroDivisionError "division by zero").
Proof.
  intros Ht E HtB EB.
  split; [|split; [|split; [|split; [|split; [|split; [|split; [|split; [|split]]]]]]]].
  - intros P. destruct (filter_data_by_province_ok df P Ht) as (out & H & _ & Hout).
    rewrite H, (Hout E). reflexivity.
  - intros c p.
    destruct (filter_data_by_city_province_ok df c p Ht) as (out & H & _ & Hout).
    rewrite H, (Hout E). reflexivity.
  - intros S. rewrite (get_category_data_ok df S Ht).
    destruct S; [reflexivity|]. f_equal.
    rewrite <- (no_rows_eta df E) at 3. rewrite E. reflexivity.
  - rewrite (get_top_10_restaurants_ok df Ht), E. reflexivity.
  - intros p c S.
    assert (Hc : complete df = true) by (unfold complete; rewrite E; reflexivity).
    destruct (dashboard_complete df p c S Ht Hc) as (d & Hd).
    exists d. split; [exact Hd|].
    destruct (dashboard_views df p c S d Ht Hd)
      as (E1 & E2 & E3 & E4 & E5 & E6 & E7 & E8).
    assert (Hv : forall f, view f df = df)
      by (intros f; apply view_all; rewrite E; intros r []).
    rewrite E4, E5, E6, E7, E8, E1, E2, E3, !Hv, E.
    repeat split.
  - intros ss sc. apply filter_selection_no_rows; assumption.
  - intros s. unfold state_of.
    rewrite (getitemB_ok T "province") by (apply is_tableB_has; simpl; tauto).
    simpl bind. rewrite (locB_no_rows T _ EB). reflexivity.
  - unfold density.
    rewrite (getitemB_ok T "province") by (apply is_tableB_has; simpl; tauto).
    rewrite EB. reflexivity.
  - rewrite category_countsB_ok by (apply is_tableB_has; simpl; tauto).
    rewrite EB. reflexivity.
  - unfold avg_per_city, avg_per.
    rewrite (getitemB_ok T "city") by (apply is_tableB_has; simpl; tauto).
    rewrite EB. reflexivity.
Qed.

Lemma no_rows_results_witness :
  get_category_data no_rows ["burgers"] = Ok no_rows /\
  get_top_10_restaurants no_rows = Ok [] /\
  filter_selection no_rowsB ["TX"] ["Wendy's"] = Ok no_rowsB /\
  category_countsB no_rowsB = Ok [] /\
  avg_per_city no_rowsB = Err (Raise ZeroDivisionError "division by zero").
Proof.
  destruct (no_rows_results no_rows no_rowsB eq_refl eq_refl eq_refl eq_refl)
    as (_ & _ & H3 & H4 & _ & H6 & _ & _ & H9 & H10).
  split; [apply H3|]. split; [exact H4|]. split; [apply H6|].
  split; [exact H9 | exact H10].
Defined.

(** * Further properties of the two scripts *)

(** ** Views and the filters of variant A *)

(** X1: applying a filter of variant A a second time with the same
    selection changes nothing. *)
Theorem filters_idempotent (df : DataFrame) (city province : string)
  (S : list string) :
  is_table df = true ->
  (exists out, filter_data_by_province df province = Ok out /\
               filter_data_by_province out province = Ok out) /\
  (exists out, filter_data_by_city_province df city province = Ok out /\
               filter_data_by_city_province out city province = Ok out) /\
  (exists out, get_category_data df S = Ok out /\
               get_category_data out S = Ok out).
Proof.
  intros Ht. split; [|split]; eexists.
  - split; [apply filter_data_by_province_view, Ht|].
    rewrite filter_data_by_province_view by exact Ht.
    rewrite view_idempotent. reflexivity.
  - split; [apply filter_data_by_city_province_view, Ht|].
    rewrite filter_data_by_city_province_view by exact Ht.
    rewrite view_idempotent. reflexivity.
  - split; [apply get_category_data_view, Ht|].
    rewrite get_category_data_view by exact Ht.
    rewrite view_idempotent. reflexivity.
Qed.

Lemma filters_idempotent_witness :
  (exists out, filter_data_by_province sample "TX" = Ok out /\
               filter_data_by_province out "TX" = Ok out) /\
  (exists out, filter_data_by_city_province sample "Austin" "TX" = Ok out /\
               filter_data_by_city_province out "Austin" "TX" = Ok out) /\
  (exists out, get_category_data sample ["burgers"] = Ok out /\
               get_category_data out ["burgers"] = Ok out).
Proof.
  apply (filters_idempotent sample "Austin" "TX" ["burgers"]). reflexivity.
Defined.

(** X2: the filters of variant A commute: the province and the category
    filter, and the city-and-province and the category filter, give the same
    table in either order. *)
Theorem filters_commute (df : DataFrame) (city province : string)
  (S : list string) :
  is_table df = true ->
  (exists a b,
     filter_data_by_province df province = Ok a /\
     get_category_data df S = Ok b /\
     get_category_data a S = filter_data_by_province b province) /\
  (exists a b,
     filter_data_by_city_province df city province = Ok a /\
     get_category_data df S = Ok b /\
     get_category_data a S = filter_data_by_city_province b city province).
Proof.
  intros Ht. split; eexists; eexists.
  - split; [apply filter_data_by_province_view, Ht|].
    split; [apply get_category_data_view, Ht|].
    rewrite get_category_data_view, filter_data_by_province_view by exact Ht.
    rewrite !view_view. f_equal. apply view_ext. intros r _. apply andb_comm.
  - split; [apply filter_data_by_city_province_view, Ht|].
    split; [apply get_category_data_view, Ht|].
    rewrite get_category_data_view, filter_data_by_city_province_view by exact Ht.
    rewrite !view_view. f_equal. apply view_ext. intros r _. apply andb_comm.
Qed.

Lemma filters_commute_witness :
  exists a b,
    filter_data_by_province sample "TX" = Ok a /\
    get_category_data sample ["burgers"] = Ok b /\
    get_category_data a ["burgers"] = filter_data_by_province b "TX".
Proof.
  apply (filters_commute sample "Austin" "TX" ["burgers"]). reflexivity.
Defined.

(** X3: filtering a table by the province first and then by city and
    province, as the script of variant A does, gives the table that the
    filter by city and province gives at once: the first filter is
    redundant.  These two tables are the ones a run of the script has. *)
Theorem province_filter_first_is_redundant (df : DataFrame) (p c : string) :
  is_table df = true ->
  exists f out,
    filter_data_by_province df p = Ok f /\
    filter_data_by_city_province f c p = Ok out /\
    filter_data_by_city_province df c p = Ok out /\
    forall S d, dashboard df p c S = Ok d ->
      filtered_df d = f /\ filtered_city_province_df d = out.
Proof.
  intros Ht. exists (view (province_condition p) df),
                    (view (city_province_condition c p) df).
  split; [apply filter_data_by_province_view, Ht|]. split.
  - rewrite filter_data_by_city_province_view by (rewrite is_table_view; exact Ht).
    f_equal. rewrite view_view. apply view_ext. intros r _.
    destruct (city_province_condition c p r) eqn:Hc.
    + rewrite (city_province_implies_province c p r Hc). reflexivity.
    + apply andb_false_r.
  - split; [apply filter_data_by_city_province_view, Ht|].
    intros S d Hd.
    destruct (dashboard_views df p c S d Ht Hd) as (E1 & E2 & _). auto.
Qed.

Lemma province_filter_first_is_redundant_witness :
  exists f,
    filter_data_by_province restaurants "TX" = Ok f /\
    filter_data_by_city_province f "austin" "TX" =
      Ok (Frame schema [wendys_austin; arbys_austin]) /\
    filter_data_by_city_province restaurants "austin" "TX" =
      Ok (Frame schema [wendys_austin; arbys_austin]).
Proof.
  destruct (province_filter_first_is_redundant restaurants "TX" "austin" eq_refl)
    as (f & out & Hf & H1 & H2 & _).
  assert (E : out = Frame schema [wendys_austin; arbys_austin]).
  { assert (H : filter_data_by_city_province restaurants "austin" "TX" =
                Ok (Frame schema [wendys_austin; arbys_austin])) by reflexivity.
    rewrite H2 in H. injection H as H. exact H. }
  subst out. exists f. auto.
Defined.

(** X4: two spellings of a city that differ in the case of their letters
    select the same rows, as long as neither is the word "All" itself, which
    is recognised in this spelling only. *)
Theorem city_filter_ignores_case (df : DataFrame) (c1 c2 province : string) :
  is_table df = true ->
  c1 <> "All" -> c2 <> "All" -> lower c1 = lower c2 ->
  filter_data_by_city_province df c1 province =
  filter_data_by_city_province df c2 province.
Proof.
  intros Ht H1 H2 E.
  rewrite !filter_data_by_city_province_view by exact Ht.
  f_equal. apply view_ext. intros r _.
  unfold city_province_condition, city_matches.
  apply String.eqb_neq in H1, H2. rewrite H1, H2, E. reflexivity.
Qed.

Lemma city_filter_ignores_case_witness :
  filter_data_by_city_province sample "AUSTIN" "TX" =
  filter_data_by_city_province sample "austin" "TX".
Proof.
  apply (city_filter_ignores_case sample "AUSTIN" "austin" "TX");
    [reflexivity | discriminate | discriminate | reflexivity].
Defined.

(** ** The loader of variant A *)

Lemma lower_ascii_idempotent (c : ascii) :
  lower_ascii (lower_ascii c) = lower_ascii c.
Proof. destruct c as [[] [] [] [] [] [] [] []]; reflexivity. Qed.

Lemma is_space_lower_ascii (c : ascii) : is_space (lower_ascii c) = is_space c.
Proof. destruct c as [[] [] [] [] [] [] [] []]; reflexivity. Qed.

Lemma lower_idempotent (s : string) : lower (lower s) = lower s.
Proof.
  induction s as [|c s IH]; simpl; [reflexivity|].
  rewrite lower_ascii_idempotent, IH. reflexivity.
Qed.

Lemma lstrip_lower (s : string) : lstrip (lower s) = lower (lstrip s).
Proof.
  induction s as [|c s IH]; simpl; [reflexivity|].
  rewrite is_space_lower_ascii. destruct (is_space c); [exact IH | reflexivity].
Qed.

Lemma rstrip_lower (s : string) : rstrip (lower s) = lower (rstrip s).
Proof.
  induction s as [|c s IH]; simpl; [reflexivity|].
  rewrite IH, is_space_lower_ascii.
  destruct (rstrip s); simpl; [destruct (is_space c)|]; reflexivity.
Qed.

Lemma rstrip_idempotent (s : string) : rstrip (rstrip s) = rstrip s.
Proof.
  induction s as [|c s IH]; simpl; [reflexivity|].
  destruct (rstrip s) as [|a r] eqn:E.
  - destruct (is_space c) eqn:Ec; simpl; [reflexivity|]. rewrite Ec. reflexivity.
  - simpl. simpl in IH. rewrite IH. reflexivity.
Qed.

(** A text that does not begin with a space. *)
Lemma lstrip_fixed (s : string) :
  match s with
  | EmptyString => True
  | String c _ => is_space c = false
  end -> lstrip s = s.
Proof. destruct s as [|c s]; simpl; [reflexivity|]. intros ->. reflexivity. Qed.

Lemma lstrip_head (s : string) :
  match lstrip s with
  | EmptyString => True
  | String c _ => is_space c = false
  end.
Proof.
  induction s as [|c s IH]; simpl; [exact I|].
  destruct (is_space c) eqn:E; [exact IH | exact E].
Qed.

Lemma rstrip_head (s : string) :
  match s with
  | EmptyString => True
  | String c _ => is_space c = false
  end ->
  match rstrip s with
  | EmptyString => True
  | String c _ => is_space c = false
  end.
Proof.
  destruct s as [|c s]; simpl; [auto|]. intros E.
  destruct (rstrip s); [rewrite E|]; exact E.
Qed.

Lemma strip_idempotent (s : string) : strip (strip s) = strip s.
Proof.
  unfold strip.
  rewrite (lstrip_fixed (rstrip (lstrip s))).
  - apply rstrip_idempotent.
  - apply rstrip_head, lstrip_head.
Qed.

Lemma strip_lower (s : string) : strip (lower s) = lower (strip s).
Proof. unfold strip. rewrite lstrip_lower, rstrip_lower. reflexivity. Qed.

Lemma clean_other_columns (r : Row) (k : string) :
  k <> "categories" -> clean r k = r k.
Proof.
  intros H. unfold clean, set_cell. apply String.eqb_neq in H. rewrite H.
  reflexivity.
Qed.

Lemma clean_categories (r : Row) :
  clean r "categories" = option_map (fun s => lower (strip s)) (r "categories").
Proof. unfold clean, set_cell. simpl. destruct (r "categories"); reflexivity. Qed.

(** X5: in the table [load_and_clean_data] returns, a text of the column
    [categories] has no space at either end and no capital letter: [strip]
    and [lower] leave it as it is.  Each row is a row of the file with that
    one column changed, and the columns are those of the file. *)
Theorem load_and_clean_data_normalises (src : DataFrame) :
  has_column src "id" = true -> has_column src "categories" = true ->
  exists out,
    load_and_clean_data (Ok src) = (Ok (Some out), []) /\
    columns out = columns src /\
    forall r', In r' (rows out) ->
      (forall s, r' "categories" = Some s -> strip s = s /\ lower s = s) /\
      exists r, In r (rows src) /\
        (forall k, k <> "categories" -> r' k = r k) /\
        r' "categories" = option_map (fun s => lower (strip s)) (r "categories").
Proof.
  intros Hid Hcat. eexists.
  split; [apply load_and_clean_data_ok; assumption|].
  split; [reflexivity|]. simpl.
  intros r' Hr'. apply in_map_iff in Hr'. destruct Hr' as (r & <- & Hr).
  split.
  - intros s. rewrite clean_categories.
    destruct (r "categories") as [t|]; simpl; [|discriminate].
    intros [= <-]. split.
    + rewrite strip_lower, strip_idempotent. reflexivity.
    + apply lower_idempotent.
  - exists r. split; [apply (keep_last_incl "id"), Hr|].
    split; [intros k; apply clean_other_columns | apply clean_categories].
Qed.

Lemma load_and_clean_data_normalises_witness :
  exists out,
    load_and_clean_data (Ok sample) = (Ok (Some out), []) /\
    columns out = columns sample /\
    forall r', In r' (rows out) ->
      (forall s, r' "categories" = Some s -> strip s = s /\ lower s = s) /\
      exists r, In r (rows sample) /\
        (forall k, k <> "categories" -> r' k = r k) /\
        r' "categories" = option_map (fun s => lower (strip s)) (r "categories").
Proof.
  apply (load_and_clean_data_normalises sample); reflexivity.
Defined.

Lemma filter_out_length {K} (eqb : K -> K -> bool)
  (eqb_eq : forall a b, eqb a b = true <-> a = b) (x : K) (u : list K) :
  NoDup u ->
  List.length (filter (fun y => negb (eqb x y)) u) + (if existsb (eqb x) u then 1 else 0) =
  List.length u.
Proof.
  induction u as [|y u IH]; simpl; [reflexivity|].
  intros Hnd. inversion Hnd as [|? ? Hy Hu]; subst.
  specialize (IH Hu).
  destruct (eqb x y) eqn:E; simpl.
  - apply eqb_eq in E. subst y.
    assert (Hx : existsb (eqb x) u = false).
    { destruct (existsb (eqb x) u) eqn:Ex; [|reflexivity].
      apply existsb_exists in Ex. destruct Ex as (z & Hz & Ez).
      apply eqb_eq in Ez. subst z. contradiction. }
    rewrite Hx in IH. lia.
  - lia.
Qed.

Lemma existsb_distinct {K} (eqb : K -> K -> bool)
  (eqb_eq : forall a b, eqb a b = true <-> a = b) (x : K) (l : list K) :
  existsb (eqb x) (distinct eqb l) = existsb (eqb x) l.
Proof.
  destruct (existsb (eqb x) l) eqn:E.
  - apply existsb_exists in E. destruct E as (y & Hy & Ey).
    apply existsb_exists. exists y. split; [|exact Ey].
    apply (proj2 (distinct_In eqb eqb_eq l y)), Hy.
  - destruct (existsb (eqb x) (distinct eqb l)) eqn:E'; [|reflexivity].
    apply existsb_exists in E'. destruct E' as (y & Hy & Ey).
    apply (proj1 (distinct_In eqb eqb_eq l y)) in Hy.
    assert (existsb (eqb x) l = true); [|congruence].
    apply existsb_exists. exists y. auto.
Qed.

Lemma keep_last_length (c : string) (l : list Row) :
  List.length (keep_last c l) =
  List.length (distinct cell_eqb (map (fun r => r c) l)).
Proof.
  induction l as [|r l IH]; simpl; [reflexivity|].
  pose proof (filter_out_length cell_eqb cell_eqb_eq (r c)
                (distinct cell_eqb (map (fun x => x c) l))
                (distinct_NoDup cell_eqb cell_eqb_eq _)) as H.
  rewrite (existsb_distinct cell_eqb cell_eqb_eq) in H.
  assert (E : existsb (fun r' : Row => cell_eqb (r' c) (r c)) l =
              existsb (cell_eqb (r c)) (map (fun x => x c) l)).
  { clear. induction l as [|x l IH]; simpl; [reflexivity|].
    rewrite IH. f_equal.
    destruct (cell_eqb (x c) (r c)) eqn:E1, (cell_eqb (r c) (x c)) eqn:E2;
      try reflexivity.
    - apply cell_eqb_eq in E1. symmetry in E1. apply cell_eqb_eq in E1. congruence.
    - apply cell_eqb_eq in E2. symmetry in E2. apply cell_eqb_eq in E2. congruence. }
  match goal with
  | |- context [if ?b then _ else _] =>
      replace b with (existsb (cell_eqb (r c)) (map (fun x => x c) l))
        by (symmetry; exact E)
  end.
  destruct (existsb (cell_eqb (r c)) (map (fun x => x c) l));
    simpl; simpl in H; lia.
Qed.

(** X6: the table [load_and_clean_data] returns has as many rows as the file
    has distinct ids (NaN one of them), and so no more rows than the file. *)
Theorem load_and_clean_data_row_count (src : DataFrame) :
  has_column src "id" = true -> has_column src "categories" = true ->
  exists out,
    load_and_clean_data (Ok src) = (Ok (Some out), []) /\
    List.length (rows out) =
      List.length (unique (map (fun r => r "id") (rows src))) /\
    List.length (rows out) <= List.length (rows src).
Proof.
  intros Hid Hcat. eexists.
  split; [apply load_and_clean_data_ok; assumption|]. simpl.
  rewrite length_map, (keep_last_length "id"). split; [reflexivity|].
  rewrite <- (keep_last_length "id").
  clear. induction (rows src) as [|r l IH]; simpl; [lia|].
  case_if E; simpl; lia.
Qed.

Lemma load_and_clean_data_row_count_witness :
  exists out,
    load_and_clean_data (Ok sample) = (Ok (Some out), []) /\
    List.length (rows out) =
      List.length (unique (map (fun r => r "id") (rows sample))) /\
    List.length (rows out) <= List.length (rows sample).
Proof.
  apply (load_and_clean_data_row_count sample); reflexivity.
Defined.

(** ** The loader of variant B *)

Lemma startswith_app (p s : string) :
  startswith p s = true -> exists t, s = (p ++ t)%string.
Proof.
  revert s. induction p as [|a p IH]; intros s; simpl.
  - intros _. exists s. reflexivity.
  - destruct s as [|b s]; [discriminate|].
    rewrite andb_true_iff. intros [Hab Hs].
    apply Ascii.eqb_eq in Hab. subst b.
    destruct (IH s Hs) as (t & ->). exists t. reflexivity.
Qed.

Lemma split_go_nonempty (sep s : string) (skip : nat) (cur : string) :
  split_go sep s skip cur <> [].
Proof.
  revert skip cur. induction s as [|c s IH]; intros skip cur; simpl;
    [discriminate|].
  destruct skip; [|apply IH].
  destruct (startswith sep (String c s)); [discriminate | apply IH].
Qed.

Lemma concat_cons (sep x : string) (l : list string) :
  l <> [] -> String.concat sep (x :: l) = (x ++ sep ++ String.concat sep l)%string.
Proof. destruct l; [congruence | reflexivity]. Qed.

Lemma append_nil_r (s : string) : (s ++ "")%string = s.
Proof. induction s as [|c s IH]; simpl; [reflexivity|]. rewrite IH. reflexivity. Qed.

Lemma append_assoc (a b c : string) : ((a ++ b) ++ c)%string = (a ++ (b ++ c))%string.
Proof. induction a as [|x a IH]; simpl; [reflexivity|]. rewrite IH. reflexivity. Qed.

(** Joining what is left to read: [pre] is the part of the separator still to
    pass. *)
Lemma split_go_concat (sep : string) (s pre rest cur : string) :
  sep <> "" -> s = (pre ++ rest)%string ->
  String.concat sep (split_go sep s (String.length pre) cur) = (cur ++ rest)%string.
Proof.
  intros Hsep. revert pre rest cur.
  induction s as [|c s IH]; intros pre rest cur E.
  - destruct pre; [|discriminate]. simpl in E. subst rest. simpl.
    symmetry. apply append_nil_r.
  - destruct pre as [|a pre]; simpl String.length.
    + simpl in E. subst rest. cbn [split_go].
      destruct (startswith sep (String c s)) eqn:Hs.
      * destruct (startswith_app _ _ Hs) as (t & Ht).
        destruct sep as [|a sep']; [congruence|].
        simpl in Ht. injection Ht as <- ->.
        rewrite concat_cons by apply split_go_nonempty.
        replace (String.length (String c sep') - 1) with (String.length sep')
          by (simpl; lia).
        rewrite (IH sep' t "" eq_refl). reflexivity.
      * pose proof (IH "" s (cur ++ String c "")%string eq_refl) as H.
        simpl String.length in H. rewrite H, append_assoc. reflexivity.
    + simpl in E. injection E as <- ->. cbn [split_go].
      apply IH. reflexivity.
Qed.

(** Joining the tokens of a text gives the text back. *)
Lemma split_concat (sep s : string) :
  sep <> "" -> String.concat sep (split sep s) = s.
Proof.
  intros Hsep. unfold split.
  apply (split_go_concat sep s "" s "" Hsep). reflexivity.
Qed.

Lemma combine_map {A B} (f : A -> B) (l : list A) :
  combine l (map f l) = map (fun x => (x, f x)) l.
Proof. induction l as [|x l IH]; simpl; [reflexivity|]. rewrite IH. reflexivity. Qed.

Lemma load_data_ok (src : DataFrame) :
  has_column src "categories" = true ->
  load_data (Ok src) =
  (Ok (Some (FrameOfLists (columns src)
               (map (fun r => (r, option_map (split " and ") (r "categories")))
                    (rows src)))), []).
Proof.
  intros Hc. unfold load_data, load_data_try. simpl bind.
  rewrite (getitem_ok src "categories" Hc). simpl bind.
  unfold setitem_lists, str_split. rewrite map_map, combine_map. reflexivity.
Qed.

(** X7: [load_data] keeps every row of the file, in order, and every column;
    beside each row it puts the tokens of its [categories], of which there is
    at least one, and which joined by " and " give the text of the file back;
    a row without categories has none. *)
Theorem load_data_keeps_rows (src : DataFrame) :
  has_column src "categories" = true ->
  exists out,
    load_data (Ok src) = (Ok (Some out), []) /\
    columnsB out = columns src /\
    map fst (rowsB out) = rows src /\
    forall r c, In (r, c) (rowsB out) ->
      match c with
      | Some toks =>
          toks <> [] /\ r "categories" = Some (String.concat " and " toks)
      | None => r "categories" = None
      end.
Proof.
  intros Hc. eexists. split; [apply load_data_ok, Hc|]. simpl.
  split; [reflexivity|]. split.
  - rewrite map_map. simpl. apply map_id.
  - intros r c Hin. apply in_map_iff in Hin. destruct Hin as (x & [= <- <-] & _).
    destruct (x "categories") as [s|]; simpl; [|reflexivity].
    split; [apply split_go_nonempty|].
    rewrite split_concat; [reflexivity | discriminate].
Qed.

Lemma load_data_keeps_rows_witness :
  exists out,
    load_data (Ok sample) = (Ok (Some out), []) /\
    columnsB out = columns sample /\
    map fst (rowsB out) = rows sample /\
    forall r c, In (r, c) (rowsB out) ->
      match c with
      | Some toks =>
          toks <> [] /\ r "categories" = Some (String.concat " and " toks)
      | None => r "categories" = None
      end.
Proof.
  apply (load_data_keeps_rows sample). reflexivity.
Defined.

Lemma explode_row_spec (r : Row * cells) (r' : Row) :
  In r' (explode_row r) ->
  (forall k, k <> "categories" -> r' k = fst r k) /\
  match r' "categories" with
  | Some t => exists toks, snd r = Some toks /\ In t toks
  | None => snd r = None \/ snd r = Some []
  end.
Proof.
  destruct r as [x c]. unfold explode_row. simpl.
  assert (Hk : forall v k, k <> "categories" -> set_cell "categories" v x k = x k).
  { intros v k Hk. unfold set_cell. apply String.eqb_neq in Hk. rewrite Hk.
    reflexivity. }
  destruct c as [[|t ts]|].
  - intros [<- | []]. split; [apply Hk | simpl; auto].
  - intros Hin. apply in_map_iff in Hin. destruct Hin as (u & <- & Hu).
    split; [apply Hk|]. simpl. eauto.
  - intros [<- | []]. split; [apply Hk | simpl; auto].
Qed.

Lemma explode_row_length (r : Row * cells) : 1 <= List.length (explode_row r).
Proof.
  destruct r as [x [[|t ts]|]]; unfold explode_row; simpl; lia.
Qed.

(** X8: [explode] loses no row: the exploded table has at least as many rows
    as the table, and each of its rows is a row of the table with, in
    [categories], one of its tokens, or NaN when it has none. *)
Theorem explode_keeps_rows (T : FrameB) :
  columns (explode T) = columnsB T /\
  List.length (rowsB T) <= List.length (rows (explode T)) /\
  forall r', In r' (rows (explode T)) ->
    exists r, In r (rowsB T) /\
      (forall k, k <> "categories" -> r' k = fst r k) /\
      match r' "categories" with
      | Some t => exists toks, snd r = Some toks /\ In t toks
      | None => snd r = None \/ snd r = Some []
      end.
Proof.
  split; [reflexivity|]. split.
  - unfold explode. simpl. induction (rowsB T) as [|r l IH]; simpl; [lia|].
    rewrite length_app. pose proof (explode_row_length r). lia.
  - intros r' Hin. unfold explode in Hin. simpl in Hin.
    apply in_flat_map in Hin. destruct Hin as (r & Hr & Hin).
    exists r. split; [exact Hr | apply explode_row_spec, Hin].
Qed.

(** X9: the category counts of variant B leave no row with categories out:
    for the table [load_data] returns, they sum to at least the number of
    rows of the file that have categories. *)
Theorem category_counts_cover_rows (src : DataFrame) :
  has_column src "categories" = true ->
  exists out vc,
    load_data (Ok src) = (Ok (Some out), []) /\
    category_countsB out = Ok vc /\
    present "categories" src <= total vc.
Proof.
  intros Hc. eexists. eexists. split; [apply load_data_ok, Hc|].
  split; [apply category_countsB_ok; exact Hc|].
  rewrite total_value_counts. cbn [rowsB]. rewrite explode_tokens.
  unfold present. induction (rows src) as [|r l IH]; simpl; [lia|].
  unfold tokens at 1. simpl.
  destruct (r "categories") as [s|]; simpl; [|exact IH].
  assert (1 <= List.length (split " and " s)).
  { pose proof (split_go_nonempty " and " s 0 "") as H. unfold split.
    destruct (split_go " and " s 0 ""); [congruence | simpl; lia]. }
  lia.
Qed.

Lemma category_counts_cover_rows_witness :
  exists out vc,
    load_data (Ok sample) = (Ok (Some out), []) /\
    category_countsB out = Ok vc /\
    present "categories" sample <= total vc.
Proof.
  apply (category_counts_cover_rows sample). reflexivity.
Defined.

(** ** Tables of counts *)

Section CountsOf.

Context {K : Type}.
Variable eqb : K -> K -> bool.
Hypothesis eqb_eq : forall a b, eqb a b = true <-> a = b.

Lemma count_eq_In (k : K) (v : list K) : 1 <= count_eq eqb k v <-> In k v.
Proof.
  induction v as [|x v IH]; simpl; [lia|].
  destruct (eqb k x) eqn:E.
  - apply eqb_eq in E. subst x. split; [auto | lia].
  - rewrite IH. split; [auto|]. intros [-> | H]; [|exact H].
    rewrite (proj2 (eqb_eq k k) eq_refl) in E. discriminate.
Qed.

Lemma counts_of_keys (u v : list K) :
  NoDup u -> (forall k, In k u -> In k v) ->
  counts_of eqb v (map (fun k => (k, count_eq eqb k v)) u).
Proof.
  intros Hnd Hin. split.
  - rewrite map_map. simpl. rewrite map_id. exact Hnd.
  - intros k n H. apply in_map_iff in H. destruct H as (x & [= <- <-] & Hx).
    split; [reflexivity|]. apply count_eq_In, Hin, Hx.
Qed.

Lemma counts_of_perm (v : list K) (t t' : Counts K) :
  Permutation t t' -> counts_of eqb v t -> counts_of eqb v t'.
Proof.
  intros Hp [Hnd H]. split.
  - apply (Permutation_NoDup (Permutation_map fst Hp)), Hnd.
  - intros k n Hin. apply H. apply (Permutation_in _ (Permutation_sym Hp)), Hin.
Qed.

Lemma firstn_In {A} (n : nat) (l : list A) (x : A) : In x (firstn n l) -> In x l.
Proof.
  revert l. induction n as [|n IH]; intros [|a l]; simpl; try tauto.
  intros [H | H]; auto.
Qed.

Lemma firstn_NoDup {A} (n : nat) (l : list A) : NoDup l -> NoDup (firstn n l).
Proof.
  revert l. induction n as [|n IH]; intros [|a l] H; simpl; try constructor.
  - inversion H; subst. intros Hin. apply firstn_In in Hin. contradiction.
  - inversion H; subst. apply IH. assumption.
Qed.

Lemma counts_of_firstn (v : list K) (n : nat) (t : Counts K) :
  counts_of eqb v t -> counts_of eqb v (firstn n t).
Proof.
  intros [Hnd H]. split.
  - rewrite <- firstn_map. apply firstn_NoDup, Hnd.
  - intros k m Hin. apply H. apply (firstn_In n), Hin.
Qed.

End CountsOf.


(** The groups and the counts of [value_counts]. *)
Lemma value_counts_spec_aux (s : Series) :
  counts_of String.eqb (dropna s) (value_counts s) /\
  (forall k, In k (map fst (value_counts s)) <-> In (Some k) s).
Proof.
  unfold value_counts, sort_values_count_desc.
  set (t := map (fun k => (k, count_eq String.eqb k (dropna s)))
                (distinct String.eqb (dropna s))).
  assert (Ht : counts_of String.eqb (dropna s) t).
  { apply (counts_of_keys String.eqb String.eqb_eq).
    - apply (distinct_NoDup String.eqb String.eqb_eq).
    - intros k. apply (distinct_In String.eqb String.eqb_eq). }
  split.
  - apply (counts_of_perm String.eqb _ t); [|exact Ht].
    apply Permutation_sym, sort_by_perm.
  - intros k. rewrite <- In_dropna.
    rewrite <- (distinct_In String.eqb String.eqb_eq (dropna s) k).
    assert (E : map fst t = distinct String.eqb (dropna s)).
    { subst t. rewrite map_map. simpl. apply map_id. }
    rewrite <- E. split; intros H.
    + apply (Permutation_in _ (Permutation_map fst (sort_by_perm by_count_desc t))), H.
    + apply (Permutation_in _ (Permutation_sym
               (Permutation_map fst (sort_by_perm by_count_desc t)))), H.
Qed.

(** X10: [value_counts] lists every value of the column that is not NaN
    exactly once, with the number of the rows that have it, which is not
    zero, larger counts first. *)
Theorem value_counts_spec (s : Series) :
  counts_of String.eqb (dropna s) (value_counts s) /\
  (forall k, In k (map fst (value_counts s)) <-> In (Some k) s) /\
  StronglySorted (fun a b => snd b <= snd a) (value_counts s).
Proof.
  split; [apply value_counts_spec_aux|]. split; [apply value_counts_spec_aux|].
  unfold value_counts, sort_values_count_desc.
  match goal with
  | |- StronglySorted _ (sort_by _ ?t) =>
      pose proof (sort_by_placed by_count_desc (fun _ _ => True)
                    by_count_desc_asym by_count_desc_left t
                    (StronglySorted_any t)) as H
  end.
  revert H. apply StronglySorted_weaken.
  unfold placed, by_count_desc. intros a b [H | [H _]].
  - apply Nat.ltb_lt in H. lia.
  - apply Nat.ltb_ge in H. exact H.
Qed.

Lemma dropna_repeat (p : string) (n : nat) :
  dropna (repeat (Some p) n) = repeat p n.
Proof. induction n as [|n IH]; simpl; [reflexivity|]. rewrite IH. reflexivity. Qed.

Lemma count_eq_repeat (p : string) (n : nat) :
  count_eq String.eqb p (repeat p n) = n.
Proof.
  induction n as [|n IH]; simpl; [reflexivity|].
  rewrite String.eqb_refl, IH. reflexivity.
Qed.

Lemma distinct_repeat (p : string) (n : nat) :
  distinct String.eqb (repeat p (S n)) = [p].
Proof.
  induction n as [|n IH]; [reflexivity|].
  change (repeat p (S (S n))) with (p :: repeat p (S n)).
  cbn [distinct]. rewrite IH. simpl. rewrite String.eqb_refl. reflexivity.
Qed.

(** The counts of a column that has one value only. *)
Lemma value_counts_constant (p : string) (s : Series) :
  Forall (eq (Some p)) s ->
  value_counts s = match s with [] => [] | _ => [(p, List.length s)] end.
Proof.
  intros H. apply Forall_eq_repeat in H. rewrite H at 1.
  destruct s as [|x s]; [reflexivity|]. simpl List.length.
  unfold value_counts. rewrite dropna_repeat, distinct_repeat.
  simpl map. rewrite count_eq_repeat, String.eqb_refl. reflexivity.
Qed.

(** X11: with a province selected, the state counts of a run of the script
    of variant A are one entry, the province with the number of rows shown,
    or none when no row is shown. *)
Theorem province_counts_of_one_province (df : DataFrame) (p c : string)
  (S : list string) (d : Dashboard) :
  is_table df = true -> p <> "All" ->
  dashboard df p c S = Ok d ->
  province_counts d =
  match rows (filtered_city_province_df d) with
  | [] => []
  | _ => [(p, List.length (rows (filtered_city_province_df d)))]
  end.
Proof.
  intros Ht Hp Hd.
  destruct (dashboard_views df p c S d Ht Hd) as (_ & E & _ & _ & Ec & _).
  rewrite Ec. rewrite (value_counts_constant p).
  - rewrite length_map. destruct (rows (filtered_city_province_df d)); reflexivity.
  - rewrite E. unfold view. simpl. apply Forall_forall. intros x Hx.
    apply in_map_iff in Hx. destruct Hx as (r & <- & Hr).
    apply filter_In in Hr. destruct Hr as [_ Hr].
    unfold city_province_condition in Hr. apply andb_true_iff in Hr.
    destruct Hr as [_ Hr]. apply String.eqb_neq in Hp. rewrite Hp in Hr.
    simpl in Hr. symmetry. apply cell_is_eq, Hr.
Qed.

Lemma province_counts_of_one_province_witness :
  exists d,
    dashboard restaurants "TX" "All" [] = Ok d /\
    rows (filtered_city_province_df d) =
      [wendys_austin; arbys_austin; wendys_dallas] /\
    province_counts d = [("TX", 3)].
Proof.
  destruct (dashboard_complete restaurants "TX" "All" [] eq_refl eq_refl) as (d & Hd).
  assert (Hv : rows (filtered_city_province_df d) =
               [wendys_austin; arbys_austin; wendys_dallas]).
  { destruct (dashboard_views restaurants "TX" "All" [] d eq_refl Hd)
      as (_ & -> & _). reflexivity. }
  exists d. split; [exact Hd|]. split; [exact Hv|].
  rewrite (province_counts_of_one_province restaurants "TX" "All" [] d eq_refl
             ltac:(discriminate) Hd).
  rewrite Hv. reflexivity.
Defined.

Lemma filter_key (t : Counts string) (k : string) (n : nat) :
  NoDup (map fst t) -> In (k, n) t ->
  filter (fun kv => String.eqb k (fst kv)) t = [(k, n)].
Proof.
  induction t as [|[a m] t IH]; simpl; [tauto|].
  intros Hnd Hin. inversion Hnd as [|? ? Ha Ht]; subst.
  assert (Hnone : forall u : Counts string, ~ In k (map fst u) ->
                    filter (fun kv => String.eqb k (fst kv)) u = []).
  { induction u as [|[b j] u IHu]; simpl; [reflexivity|].
    intros H. destruct (String.eqb k b) eqn:E.
    - apply String.eqb_eq in E. subst b. exfalso. apply H. auto.
    - apply IHu. intros H'. apply H. auto. }
  destruct Hin as [[= -> ->] | Hin].
  - rewrite String.eqb_refl, (Hnone t Ha). reflexivity.
  - destruct (String.eqb k a) eqn:E.
    + apply String.eqb_eq in E. subst a. exfalso. apply Ha.
      apply in_map_iff. exists (k, n). auto.
    + apply IH; assumption.
Qed.

Lemma filter_no_key (t : Counts string) :
  filter (fun kv => cell_is (fst kv) None) t = [].
Proof. induction t as [|a t IH]; simpl; [reflexivity | exact IH]. Qed.

Lemma merge_rows (t : Counts string) (v : list string) (l : list Row) :
  counts_of String.eqb v t ->
  (forall k, In k v -> In k (map fst t)) ->
  (forall r k, In r l -> r "province" = Some k -> In k v) ->
  flat_map
    (fun r =>
       match filter (fun kv => cell_is (fst kv) (r "province")) t with
       | [] => [(r, None)]
       | m => map (fun kv => (r, Some (snd kv))) m
       end) l =
  map (fun r => (r, match r "province" with
                    | Some k => Some (count_eq String.eqb k v)
                    | None => None
                    end)) l.
Proof.
  intros [Hnd Hc] Hk. induction l as [|r l IH]; intros Hin; [reflexivity|].
  cbn [flat_map map].
  refine (f_equal2 (@app _) (y1 := [_]) _
            (IH (fun x k Hx => Hin x k (or_intror Hx)))).
  destruct (r "province") as [k|] eqn:Ek.
  - simpl cell_is.
    assert (Hv : In k (map fst t)) by (apply Hk, (Hin r k); simpl; auto).
    apply in_map_iff in Hv. destruct Hv as ([a n] & Ea & Hkn). simpl in Ea. subst a.
    rewrite (filter_key t k n Hnd Hkn). simpl.
    destruct (Hc k n Hkn) as [-> _]. reflexivity.
  - rewrite filter_no_key. reflexivity.
Qed.

(** X12: the merge that feeds the density map keeps the rows shown as they
    are, one for one and in order; the count it puts beside a row is the
    number of rows shown that have the province of the row, and NaN beside a
    row without province. *)
Theorem map_data_spec (view : DataFrame) :
  is_table view = true ->
  map_data view =
  Ok (map (fun r =>
             (r, match r "province" with
                 | Some v =>
                     Some (count_eq String.eqb v
                             (dropna (map (fun x => x "province") (rows view))))
                 | None => None
                 end))
          (rows view)).
Proof.
  intros Ht. unfold map_data. rewrite getitem_ok by schema_column. simpl bind.
  f_equal. unfold merge_left.
  destruct (value_counts_spec_aux (map (fun x => x "province") (rows view)))
    as (Hc & Hk).
  apply merge_rows; [exact Hc | |].
  - intros k Hin. apply Hk, In_dropna, Hin.
  - intros r k Hr Ek. apply In_dropna. rewrite <- Ek.
    apply in_map_iff. exists r. auto.
Qed.

Lemma map_data_witness :
  map_data sample =
  Ok (map (fun r =>
             (r, match r "province" with
                 | Some v =>
                     Some (count_eq String.eqb v
                             (dropna (map (fun x => x "province") (rows sample))))
                 | None => None
                 end))
          (rows sample)).
Proof. apply (map_data_spec sample). reflexivity. Defined.

(** ** The map of the most common restaurants *)

Lemma indicator_sum_any (u : list string) (x : string) :
  NoDup u ->
  list_sum (map (fun k => if String.eqb k x then 1 else 0) u) =
  if existsb (String.eqb x) u then 1 else 0.
Proof.
  intros Hnd. destruct (existsb (String.eqb x) u) eqn:E.
  - apply existsb_exists in E. destruct E as (y & Hy & Ey).
    apply String.eqb_eq in Ey. subst y.
    apply (indicator_sum String.eqb String.eqb_eq); assumption.
  - clear Hnd. induction u as [|k u IH]; simpl in *; [reflexivity|].
    apply orb_false_iff in E. destruct E as [E1 E2].
    rewrite String.eqb_sym, E1. simpl. apply IH, E2.
Qed.

(** The counts of duplicate-free keys sum to the number of values that are
    among the keys. *)
Lemma count_sum_filter (u v : list string) :
  NoDup u ->
  list_sum (map (fun k => count_eq String.eqb k v) u) =
  List.length (filter (fun x => existsb (String.eqb x) u) v).
Proof.
  intros Hnd. induction v as [|x v IH]; simpl.
  - clear. induction u as [|k u IHu]; simpl; [reflexivity | exact IHu].
  - rewrite list_sum_map_add, IH, (indicator_sum_any u x Hnd).
    destruct (existsb (String.eqb x) u); simpl; lia.
Qed.

Lemma total_counts_of (v : list string) (t : Counts string) :
  counts_of String.eqb v t ->
  total t = List.length (filter (fun x => existsb (String.eqb x) (map fst t)) v).
Proof.
  intros [Hnd Hc]. rewrite <- (count_sum_filter _ v Hnd).
  unfold total. rewrite map_map. clear Hnd.
  induction t as [|[k n] t IH]; simpl; [reflexivity|].
  destruct (Hc k n (or_introl eq_refl)) as [-> _].
  rewrite IH; [reflexivity|]. intros a m H. apply Hc. right. exact H.
Qed.

Lemma groupby_size_counts (s : Series) :
  counts_of String.eqb (dropna s) (groupby_size s).
Proof.
  unfold groupby_size. apply (counts_of_keys String.eqb String.eqb_eq).
  - apply (Permutation_NoDup (Permutation_sym (sort_by_perm String.ltb _))).
    apply (distinct_NoDup String.eqb String.eqb_eq).
  - intros k Hk. apply (distinct_In String.eqb String.eqb_eq).
    apply (Permutation_in _ (sort_by_perm String.ltb _)), Hk.
Qed.

Lemma top_10_counts (s : Series) :
  counts_of String.eqb (dropna s)
            (head 10 (sort_values_count_desc (groupby_size s))).
Proof.
  unfold head. apply counts_of_firstn.
  apply (counts_of_perm String.eqb _ (groupby_size s)).
  - apply Permutation_sym, sort_by_perm.
  - apply groupby_size_counts.
Qed.

Lemma named_rows_le (keys : list string) (f : Row -> bool) (l : list Row) :
  List.length (filter (fun x => existsb (String.eqb x) keys)
                      (dropna (map (fun r => r "name") (filter f l)))) <=
  List.length (filter (fun r => cell_in keys (r "name")) l).
Proof.
  induction l as [|r l IH]; simpl; [lia|].
  destruct (f r); simpl.
  - destruct (r "name") as [k|]; simpl; [|exact IH].
    destruct (existsb (String.eqb k) keys); simpl; lia.
  - destruct (cell_in keys (r "name")); simpl; lia.
Qed.

(** X13: in a run of the script of variant A the map of the most common
    restaurants shows the rows of the whole loaded table, of whatever
    province, whose name is one of the names of the top-10 table, which is
    counted in the selected province only; so it shows at least as many rows
    as the counts of that table sum to. *)
Theorem top_10_data_spec (df : DataFrame) (p c : string) (S : list string)
  (d : Dashboard) :
  is_table df = true -> dashboard df p c S = Ok d ->
  (forall r, In r (rows (top_10_data d)) <->
     In r (rows df) /\
     exists k n, r "name" = Some k /\ In (k, n) (top_10_restaurants_data d)) /\
  total (top_10_restaurants_data d) <= List.length (rows (top_10_data d)).
Proof.
  intros Ht Hd.
  destruct (dashboard_views df p c S d Ht Hd) as (Ef & _ & _ & Et & _ & _ & _ & Ec).
  rewrite Et. split.
  - intros r. unfold view. simpl. rewrite filter_In.
    apply and_iff_compat_l. unfold cell_in.
    destruct (r "name") as [k|].
    + rewrite existsb_exists. split.
      * intros (x & Hx & Ex). apply String.eqb_eq in Ex. subst x.
        apply in_map_iff in Hx. destruct Hx as ([a n] & Ea & Hin).
        simpl in Ea. subst a. eauto.
      * intros (a & n & [= <-] & Hin). exists k. split; [|apply String.eqb_refl].
        apply in_map_iff. exists (k, n). auto.
    + split; [discriminate|]. intros (a & n & H & _). discriminate.
  - unfold view. simpl rows at 1. rewrite Ec at 1.
    rewrite (total_counts_of _ _ (top_10_counts _)).
    rewrite <- Ec, Ef. apply named_rows_le.
Qed.

Lemma top_10_data_witness :
  exists d,
    dashboard restaurants "NY" "All" [] = Ok d /\
    top_10_restaurants_data d = [("Arby's", 1); ("Sonic", 1)] /\
    rows (top_10_data d) = [arbys_austin; sonic_albany; arbys_albany] /\
    (forall r, In r (rows (top_10_data d)) <->
       In r (rows restaurants) /\
       exists k n, r "name" = Some k /\ In (k, n) (top_10_restaurants_data d)) /\
    total (top_10_restaurants_data d) <= List.length (rows (top_10_data d)).
Proof.
  destruct (dashboard_complete restaurants "NY" "All" [] eq_refl eq_refl) as (d & Hd).
  exists d. split; [exact Hd|].
  destruct (dashboard_views restaurants "NY" "All" [] d eq_refl Hd)
    as (Ef & _ & _ & Et & _ & _ & _ & Ec).
  assert (E1 : top_10_restaurants_data d = [("Arby's", 1); ("Sonic", 1)])
    by (rewrite Ec, Ef; reflexivity).
  split; [exact E1|]. split; [rewrite Et, E1; reflexivity|].
  apply (top_10_data_spec restaurants "NY" "All" [] d eq_refl Hd).
Defined.

(** ** The tabs of variant B *)

Lemma is_tableB_locB (T : FrameB) (m : list bool) :
  is_tableB (locB T m) = is_tableB T.
Proof. reflexivity. Qed.

Lemma filter_selection_ok (T : FrameB) (selected_state selected_chains : list string) :
  is_tableB T = true ->
  filter_selection T selected_state selected_chains =
  Ok (FrameOfLists (columnsB T)
        (filter (selection_condition selected_state selected_chains) (rowsB T))).
Proof.
  intros Ht. unfold filter_selection.
  rewrite (getitemB_ok T "province") by (apply is_tableB_has; simpl; tauto).
  simpl bind. unfold isin. rewrite map_map.
  destruct selected_chains as [|a sc].
  - unfold locB. rewrite select_map. f_equal. f_equal.
    apply filter_ext. intros r. unfold selection_condition.
    rewrite andb_true_r. reflexivity.
  - rewrite getitemB_ok
      by (apply is_tableB_has; [rewrite is_tableB_locB; exact Ht | simpl; tauto]).
    simpl bind. unfold locB. cbn [rowsB columnsB].
    rewrite map_map, !select_map, filter_filter. reflexivity.
Qed.

Lemma selection_condition_iff (selected_state selected_chains : list string)
  (r : Row * cells) :
  selection_condition selected_state selected_chains r = true <->
  in_selection selected_state selected_chains r.
Proof.
  assert (Hin : forall (l : list string) (x : cell),
            cell_in l x = true <-> exists v, x = Some v /\ In v l).
  { intros l [v|]; simpl.
    - rewrite existsb_exists. split.
      + intros (y & Hy & E). apply String.eqb_eq in E. subst y. eauto.
      + intros (y & [= <-] & Hy). exists v. split; [exact Hy | apply String.eqb_refl].
    - split; [discriminate|]. intros (y & H & _). discriminate. }
  unfold selection_condition, in_selection.
  rewrite andb_true_iff, Hin. apply and_iff_compat_l.
  destruct selected_chains as [|a sc]; [tauto|].
  rewrite Hin. split; [auto|]. intros [H | H]; [discriminate | exact H].
Qed.

(** X14: the selection of variant B keeps, of a table, exactly the rows whose
    state is one of the selected states and, when chains are selected, whose
    name is one of them, in their order.  With no state selected it keeps no
    row, whatever the chains, and applying it again changes nothing. *)
Theorem filter_selection_spec (T : FrameB) (selected_state selected_chains : list string) :
  is_tableB T = true ->
  exists out,
    filter_selection T selected_state selected_chains = Ok out /\
    columnsB out = columnsB T /\
    selected (in_selection selected_state selected_chains) (rowsB T) (rowsB out) /\
    (selected_state = [] -> rowsB out = []) /\
    filter_selection out selected_state selected_chains = Ok out.
Proof.
  intros Ht. eexists. split; [apply filter_selection_ok, Ht|].
  split; [reflexivity|]. split; [|split].
  - apply filter_selected, selection_condition_iff.
  - intros ->. simpl. induction (rowsB T) as [|r l IH]; simpl; [reflexivity|].
    unfold selection_condition at 1. unfold cell_in.
    destruct (fst r "province"); simpl; exact IH.
  - rewrite filter_selection_ok by exact Ht. simpl. rewrite filter_filter.
    do 2 f_equal. apply filter_ext. intros r.
    destruct (selection_condition selected_state selected_chains r); reflexivity.
Qed.

Lemma filter_selection_witness :
  filter_selection restaurantsB ["TX"] ["Wendy's"] =
    Ok (FrameOfLists schema [(wendys_austin, Some ["burgers"]);
                             (wendys_dallas, Some ["burgers"])]) /\
  selected (in_selection ["TX"] ["Wendy's"]) (rowsB restaurantsB)
           [(wendys_austin, Some ["burgers"]); (wendys_dallas, Some ["burgers"])].
Proof.
  destruct (filter_selection_spec restaurantsB ["TX"] ["Wendy's"] eq_refl)
    as (out & Hout & _ & Hsel & _).
  assert (E : out = FrameOfLists schema [(wendys_austin, Some ["burgers"]);
                                         (wendys_dallas, Some ["burgers"])]).
  { assert (H : filter_selection restaurantsB ["TX"] ["Wendy's"] =
                Ok (FrameOfLists schema [(wendys_austin, Some ["burgers"]);
                                         (wendys_dallas, Some ["burgers"])]))
      by reflexivity.
    rewrite Hout in H. injection H as H. exact H. }
  subst out. split; [exact Hout | exact Hsel].
Defined.

Lemma distinct_length (l : list cell) :
  List.length (distinct cell_eqb l) <= List.length l.
Proof.
  apply NoDup_incl_length.
  - apply (distinct_NoDup cell_eqb cell_eqb_eq).
  - intros x. apply (distinct_In cell_eqb cell_eqb_eq).
Qed.

Lemma true_div_ge_1 (a b : nat) :
  1 <= b -> b <= a -> exists q, true_div a b = Ok q /\ (1 <= q)%Q.
Proof.
  intros Hb Hab. destruct b as [|b]; [lia|]. unfold true_div.
  eexists. split; [reflexivity|]. unfold Qle. cbn [Qnum Qden].
  assert (E : Z.pos (Pos.of_nat (S b)) = Z.of_nat (S b)).
  { rewrite <- Pos.of_nat_succ, Zpos_P_of_succ_nat, Nat2Z.inj_succ. reflexivity. }
  rewrite E. lia.
Qed.

Lemma state_of_ok (df : FrameB) (s : string) :
  is_tableB df = true ->
  state_of df s =
  Ok (FrameOfLists (columnsB df)
        (filter (fun r => cell_is s (fst r "province")) (rowsB df))).
Proof.
  intros Ht. unfold state_of.
  rewrite (getitemB_ok df "province") by (apply is_tableB_has; simpl; tauto).
  simpl bind. unfold locB, series_eq. rewrite select_map_map. reflexivity.
Qed.

(** X16: for a state that is the state of some row of the table, as are the
    states the widgets of variant B offer, the table of the state is not
    empty and the average number of restaurants per city is computed, no
    division by zero, and is at least 1. *)
Theorem avg_per_city_of_a_state (df : FrameB) (s : string) :
  is_tableB df = true ->
  In (Some s) (map (fun r => fst r "province") (rowsB df)) ->
  exists state_df q,
    state_of df s = Ok state_df /\
    rowsB state_df <> [] /\
    avg_per_city state_df = Ok q /\
    (1 <= q)%Q.
Proof.
  intros Ht Hs. eexists.
  assert (Hne : filter (fun r => cell_is s (fst r "province")) (rowsB df) <> []).
  { apply in_map_iff in Hs. destruct Hs as (r & Er & Hr).
    intros E.
    assert (Hin : In r (filter (fun r => cell_is s (fst r "province")) (rowsB df))).
    { apply filter_In. split; [exact Hr|]. apply cell_is_eq, Er. }
    rewrite E in Hin. exact Hin. }
  set (l := filter (fun r => cell_is s (fst r "province")) (rowsB df)) in *.
  destruct (true_div_ge_1 (List.length l)
              (List.length (unique (map (fun r => fst r "city") l))))
    as (q & Hq & Hle).
  - unfold unique.
    destruct (distinct cell_eqb (map (fun r => fst r "city") l)) eqn:E;
      [|simpl; lia].
    apply (proj1 (distinct_nil cell_eqb _)) in E. apply map_eq_nil in E.
    contradiction.
  - etransitivity; [apply distinct_length|]. rewrite length_map. reflexivity.
  - exists q. split; [apply state_of_ok, Ht|]. split; [exact Hne|].
    split; [|exact Hle].
    unfold avg_per_city, avg_per.
    rewrite getitemB_ok by (apply is_tableB_has; [exact Ht | simpl; tauto]).
    exact Hq.
Qed.

Lemma avg_per_city_of_a_state_witness :
  exists state_df q,
    state_of sampleB "TX" = Ok state_df /\
    rowsB state_df <> [] /\
    avg_per_city state_df = Ok q /\
    (1 <= q)%Q.
Proof.
  apply (avg_per_city_of_a_state sampleB "TX"); [reflexivity | simpl; auto].
Defined.

(** ** The city widget of variant A *)

(** X15: every city the widget of variant A offers for the selected province
    is the city of a row of that province, and every such city is offered;
    selecting an offered city with the province shows at least one row. *)
Theorem available_cities_spec (df : DataFrame) (p : string) (cities : list cell) :
  is_table df = true ->
  available_cities df p = Ok cities ->
  (forall c, In (Some c) cities <->
     exists r, In r (rows df) /\ province_condition p r = true /\ r "city" = Some c) /\
  (forall c, In (Some c) cities ->
     exists f out,
       filter_data_by_province df p = Ok f /\
       filter_data_by_city_province f c p = Ok out /\
       rows out <> []).
Proof.
  intros Ht Ha. rewrite (available_cities_ok df p Ht) in Ha.
  assert (Hc : forall c, In (Some c) cities <->
     exists r, In r (rows df) /\ province_condition p r = true /\ r "city" = Some c).
  { intros c. rewrite (In_sorted _ _ c Ha). unfold unique.
    rewrite (distinct_In cell_eqb cell_eqb_eq), in_map_iff. unfold view. simpl.
    split.
    - intros (r & Er & Hr). apply filter_In in Hr. exists r. tauto.
    - intros (r & Hr & Hp & Er). exists r. split; [exact Er|].
      apply filter_In. auto. }
  split; [exact Hc|].
  intros c Hin. apply Hc in Hin. destruct Hin as (r & Hr & Hp & Er).
  eexists. eexists. split; [apply filter_data_by_province_view, Ht|].
  split; [apply filter_data_by_city_province_view; rewrite is_table_view; exact Ht|].
  unfold view. simpl. intros E.
  assert (Hin : In r (filter (city_province_condition c p)
                         (filter (province_condition p) (rows df)))).
  { apply filter_In. split; [apply filter_In; auto|].
    unfold city_province_condition, city_matches. rewrite Er, String.eqb_refl.
    rewrite orb_true_r. exact Hp. }
  rewrite E in Hin. exact Hin.
Qed.

Lemma available_cities_witness :
  (forall c, In (Some c) [Some "AUSTIN"; Some "Austin"; Some "Dallas"; Some "austin"] <->
     exists r, In r (rows sample) /\ province_condition "TX" r = true /\
               r "city" = Some c) /\
  (forall c, In (Some c) [Some "AUSTIN"; Some "Austin"; Some "Dallas"; Some "austin"] ->
     exists f out,
       filter_data_by_province sample "TX" = Ok f /\
       filter_data_by_city_province f c "TX" = Ok out /\
       rows out <> []).
Proof.
  apply (available_cities_spec sample "TX"); reflexivity.
Defined.

(** X17: on a table the city widget of variant A fails, with the
    [TypeError] of [sorted], exactly when the selected province has a row
    without city and a row with one; when every row of the province has a
    city it offers the cities in ascending order, none twice. *)
Theorem available_cities_raises (df : DataFrame) (p : string) :
  is_table df = true ->
  ((exists e, available_cities df p = Err e) <->
   (exists r, In r (rows df) /\ province_condition p r = true /\ r "city" = None) /\
   (exists r c, In r (rows df) /\ province_condition p r = true /\ r "city" = Some c)) /\
  ((forall r, In r (rows df) -> province_condition p r = true -> r "city" <> None) ->
   exists names,
     available_cities df p = Ok (map Some names) /\
     StronglySorted (fun a b => String.ltb a b = true) names).
Proof.
  intros Ht. rewrite (available_cities_ok df p Ht).
  set (col := map (fun r => r "city") (rows (view (province_condition p) df))).
  assert (Hcol : forall x, In x col <->
            exists r, In r (rows df) /\ province_condition p r = true /\ r "city" = x).
  { intros x. subst col. unfold view. simpl. rewrite in_map_iff. split.
    - intros (r & Er & Hr). apply filter_In in Hr. exists r. tauto.
    - intros (r & Hr & Hp & Er). exists r. split; [exact Er|].
      apply filter_In. auto. }
  destruct (sorted_unique col) as [Hr Hok]. split.
  - rewrite Hr, Hcol. apply and_iff_compat_l. split.
    + intros (c & Hc). apply Hcol in Hc. destruct Hc as (r & H). exists r, c. exact H.
    + intros (r & c & H). exists c. apply Hcol. exists r. exact H.
  - intros Hall. destruct Hok as (names & H1 & H2 & _).
    + intros x Hx ->. apply Hcol in Hx. destruct Hx as (r & Hr' & Hp & Er).
      apply (Hall r Hr' Hp Er).
    + exists names. auto.
Qed.

Lemma available_cities_raises_witness :
  exists names,
    available_cities sample "TX" = Ok (map Some names) /\
    StronglySorted (fun a b => String.ltb a b = true) names.
Proof.
  apply (available_cities_raises sample "TX"); [reflexivity|].
  intros r [<- | [<- | [<- | [<- | [<- | []]]]]] _; discriminate.
Defined.

(** ** The most common groups *)

Lemma StronglySorted_app {A} (R : A -> A -> Prop) (l1 l2 : list A) :
  StronglySorted R (l1 ++ l2) ->
  forall a b, In a l1 -> In b l2 -> R a b.
Proof.
  induction l1 as [|x l1 IH]; simpl; intros Hs a b Ha Hb; [destruct Ha|].
  inversion Hs as [|? ? Hl Hx]; subst. destruct Ha as [<- | Ha].
  - rewrite Forall_forall in Hx. apply Hx, in_or_app. auto.
  - apply IH; assumption.
Qed.

(** What [head] leaves out of a table in descending order is no larger than
    what it keeps. *)
Lemma head_largest {K} (n : nat) (t : Counts K) (a b : K * nat) :
  StronglySorted (fun a b => snd b <= snd a) t ->
  In a (head n t) -> In b t -> ~ In b (head n t) -> snd b <= snd a.
Proof.
  unfold head. intros Hs Ha Hb Hnb.
  rewrite <- (firstn_skipn n t) in Hs, Hb.
  apply in_app_or in Hb. destruct Hb as [Hb | Hb]; [contradiction|].
  apply (StronglySorted_app _ _ _ Hs a b Ha Hb).
Qed.

Lemma sort_values_count_desc_sorted {K} (t : Counts K) :
  StronglySorted (fun a b => snd b <= snd a) (sort_values_count_desc t).
Proof.
  unfold sort_values_count_desc.
  pose proof (sort_by_placed by_count_desc (fun _ _ => True)
                by_count_desc_asym by_count_desc_left t
                (StronglySorted_any t)) as H.
  revert H. apply StronglySorted_weaken.
  unfold placed, by_count_desc. intros a b [H | [H _]].
  - apply Nat.ltb_lt in H. lia.
  - apply Nat.ltb_ge in H. exact H.
Qed.

(** The head of a sorted table of the counts of [v], all groups in it: the
    groups it lists are the most common ones. *)
Lemma head_most_common (v : list string) (n : nat) (t : Counts string) :
  counts_of String.eqb v t ->
  (forall k, In k v -> In k (map fst t)) ->
  StronglySorted (fun a b => snd b <= snd a) t ->
  counts_of String.eqb v (head n t) /\
  List.length (head n t) = Nat.min n (List.length t) /\
  forall k, In k v -> ~ In k (map fst (head n t)) ->
    forall k' m, In (k', m) (head n t) -> count_eq String.eqb k v <= m.
Proof.
  intros Hc Hall Hs. split; [apply counts_of_firstn, Hc|].
  split; [apply length_firstn|].
  intros k Hk Hnot k' m Hin.
  apply Hall in Hk. apply in_map_iff in Hk. destruct Hk as ([a j] & Ea & Hkj).
  simpl in Ea. subst a.
  destruct (proj2 Hc k j Hkj) as [Ej _]. rewrite <- Ej.
  apply (head_largest n t (k', m) (k, j) Hs Hin Hkj).
  intros H. apply Hnot. apply in_map_iff. exists (k, j). auto.
Qed.

Lemma groupby_size_keys (s : Series) (k : string) :
  In k (dropna s) -> In k (map fst (groupby_size s)).
Proof.
  intros H. unfold groupby_size. rewrite map_map. simpl. rewrite map_id.
  apply (Permutation_in _ (Permutation_sym (sort_by_perm String.ltb _))).
  apply (distinct_In String.eqb String.eqb_eq), H.
Qed.

(** X18: the names [get_top_10_restaurants] lists are the most common ones:
    the table has ten rows, or one for every name when there are fewer; each
    row gives a name, once, with the number of rows of the table that have
    it; and a name that is left out comes no more often than any name
    listed. *)
Theorem get_top_10_restaurants_most_common (df : DataFrame) :
  is_table df = true ->
  exists t,
    get_top_10_restaurants df = Ok t /\
    counts_of String.eqb (dropna (map (fun r => r "name") (rows df))) t /\
    List.length t =
      Nat.min 10 (List.length
                    (distinct String.eqb (dropna (map (fun r => r "name") (rows df))))) /\
    forall k, In (Some k) (map (fun r => r "name") (rows df)) ->
      ~ In k (map fst t) ->
      forall k' m, In (k', m) t ->
        count_eq String.eqb k (dropna (map (fun r => r "name") (rows df))) <= m.
Proof.
  intros Ht. rewrite (get_top_10_restaurants_ok df Ht).
  eexists. split; [reflexivity|].
  set (s := map (fun r => r "name") (rows df)).
  destruct (head_most_common (dropna s) 10
              (sort_values_count_desc (groupby_size s))) as (H1 & H2 & H3).
  - apply (counts_of_perm String.eqb _ (groupby_size s)).
    + apply Permutation_sym, sort_by_perm.
    + apply groupby_size_counts.
  - intros k Hk.
    apply (Permutation_in _ (Permutation_sym
             (Permutation_map fst (sort_by_perm by_count_desc (groupby_size s))))).
    apply groupby_size_keys, Hk.
  - apply sort_values_count_desc_sorted.
  - split; [exact H1|]. split.
    + rewrite H2. f_equal. unfold sort_values_count_desc.
      rewrite (Permutation_length (sort_by_perm by_count_desc (groupby_size s))).
      unfold groupby_size. rewrite length_map.
      apply Permutation_length, sort_by_perm.
    + intros k Hk. apply H3, In_dropna, Hk.
Qed.

Lemma get_top_10_restaurants_most_common_witness :
  exists t,
    get_top_10_restaurants sample = Ok t /\
    counts_of String.eqb (dropna (map (fun r => r "name") (rows sample))) t /\
    List.length t =
      Nat.min 10 (List.length
                    (distinct String.eqb (dropna (map (fun r => r "name") (rows sample))))) /\
    forall k, In (Some k) (map (fun r => r "name") (rows sample)) ->
      ~ In k (map fst t) ->
      forall k' m, In (k', m) t ->
        count_eq String.eqb k (dropna (map (fun r => r "name") (rows sample))) <= m.
Proof. apply (get_top_10_restaurants_most_common sample). reflexivity. Defined.

(** X19: the lists of the third tab of variant B, the ten cities and the ten
    chains of the state with the most restaurants, give each group once with
    the number of rows of the state that have it, in descending order; a
    group left out has no more rows than any group listed, and the counts
    listed sum to at most the number of rows of the state. *)
Theorem top_counts_spec (c : string) (state_df : FrameB) :
  has_columnB state_df c = true -> c <> "categories" ->
  exists t,
    top_counts c state_df = Ok t /\
    List.length t <= 10 /\
    counts_of String.eqb (dropna (map (fun r => fst r c) (rowsB state_df))) t /\
    StronglySorted (fun a b => snd b <= snd a) t /\
    total t <= List.length (rowsB state_df) /\
    forall k, In (Some k) (map (fun r => fst r c) (rowsB state_df)) ->
      ~ In k (map fst t) ->
      forall k' m, In (k', m) t ->
        count_eq String.eqb k (dropna (map (fun r => fst r c) (rowsB state_df))) <= m.
Proof.
  intros Hc _. unfold top_counts. rewrite (getitemB_ok state_df c Hc). cbn [bind].
  eexists. split; [reflexivity|].
  set (s := map (fun r => fst r c) (rowsB state_df)).
  destruct (value_counts_spec_aux s) as (Hcounts & Hkeys).
  assert (Hs : StronglySorted (fun a b => snd b <= snd a) (value_counts s))
    by apply sort_values_count_desc_sorted.
  destruct (head_most_common (dropna s) 10 (value_counts s) Hcounts) as (H1 & H2 & H3).
  - intros k Hk. apply Hkeys, In_dropna, Hk.
  - exact Hs.
  - split; [apply firstn_le_length|]. split; [exact H1|].
    split; [apply StronglySorted_firstn, Hs|]. split.
    + etransitivity; [apply total_firstn|]. rewrite total_value_counts.
      etransitivity; [apply dropna_le|]. subst s. rewrite length_map. reflexivity.
    + intros k Hk. apply H3, In_dropna, Hk.
Qed.

Lemma top_counts_witness :
  exists t,
    top_counts "city" sampleB = Ok t /\
    List.length t <= 10 /\
    counts_of String.eqb (dropna (map (fun r => fst r "city") (rowsB sampleB))) t /\
    StronglySorted (fun a b => snd b <= snd a) t /\
    total t <= List.length (rowsB sampleB) /\
    forall k, In (Some k) (map (fun r => fst r "city") (rowsB sampleB)) ->
      ~ In k (map fst t) ->
      forall k' m, In (k', m) t ->
        count_eq String.eqb k (dropna (map (fun r => fst r "city") (rowsB sampleB))) <= m.
Proof.
  apply (top_counts_spec "city" sampleB); [reflexivity | discriminate].
Defined.

(** X20: the five categories of the third tab of variant B are tokens of
    rows of the state, each once, and their counts sum to at most the number
    of tokens of the rows of the state. *)
Theorem state_categories_spec (state_df : FrameB) :
  has_columnB state_df "categories" = true ->
  exists t,
    state_categories state_df = Ok t /\
    List.length t <= 5 /\
    NoDup (map fst t) /\
    (forall k n, In (k, n) t ->
       1 <= n /\
       exists r toks, In r (rowsB state_df) /\ snd r = Some toks /\ In k toks) /\
    total t <= list_sum (map tokens (rowsB state_df)).
Proof.
  intros Hc. unfold state_categories.
  rewrite getitem_ok by exact Hc. cbn [bind].
  eexists. split; [reflexivity|].
  set (s := map (fun r => r "categories") (rows (explode state_df))).
  destruct (value_counts_spec_aux s) as (Hcounts & Hkeys).
  pose proof (counts_of_firstn String.eqb (dropna s) 5 _ Hcounts) as [Hnd Hn].
  split; [apply firstn_le_length|]. split; [exact Hnd|]. split.
  - intros k n Hin. split; [apply (Hn k n Hin)|].
    assert (Hk : In (Some k) s).
    { apply Hkeys. apply in_map_iff. exists (k, n). split; [reflexivity|].
      apply (firstn_In 5), Hin. }
    apply in_map_iff in Hk. destruct Hk as (r' & Er' & Hr').
    unfold explode in Hr'. simpl in Hr'. apply in_flat_map in Hr'.
    destruct Hr' as (r & Hr & Hin').
    destruct (explode_row_spec r r' Hin') as [_ H]. rewrite Er' in H.
    destruct H as (toks & Et & Hk). exists r, toks. auto.
  - etransitivity; [apply total_firstn|].
    rewrite total_value_counts. subst s. unfold explode. simpl rows.
    rewrite explode_tokens. reflexivity.
Qed.

Lemma state_categories_witness :
  exists t,
    state_categories sampleB = Ok t /\
    List.length t <= 5 /\
    NoDup (map fst t) /\
    (forall k n, In (k, n) t ->
       1 <= n /\
       exists r toks, In r (rowsB sampleB) /\ snd r = Some toks /\ In k toks) /\
    total t <= list_sum (map tokens (rowsB sampleB)).
Proof. apply (state_categories_spec sampleB). reflexivity. Defined.

(** ** The whole script of variant A *)

(** X21: the loader of variant A checks the columns [id] and [categories]
    only.  A file that has these two and the column [city] but no column
    [province] is loaded with no message, and the script then stops on the
    [KeyError] of the column [province], which nothing catches. *)
Theorem apply_py_without_province (src : DataFrame) (p c : string) (S : list string) :
  has_column src "id" = true -> has_column src "categories" = true ->
  has_column src "city" = true -> has_column src "province" = false ->
  (exists df, load_and_clean_data (Ok src) = (Ok (Some df), [])) /\
  apply_py (Ok src) p c S = (Err (Raise KeyError "'province'"), []).
Proof.
  intros Hid Hcat Hcity Hp. pose proof (load_and_clean_data_ok src Hid Hcat) as Hl.
  split; [eauto|]. unfold apply_py. rewrite Hl.
  set (df := Frame (columns src) (map clean (keep_last "id" (rows src)))).
  assert (Hg0 : getitem df "province" = Err (Raise KeyError "'province'")).
  { unfold getitem. change (has_column df "province") with (has_column src "province").
    rewrite Hp. reflexivity. }
  unfold dashboard, options. rewrite Hg0. reflexivity.
Qed.

Lemma apply_py_without_province_witness :
  (exists df, load_and_clean_data (Ok no_province) = (Ok (Some df), [])) /\
  apply_py (Ok no_province) "All" "Austin" [] =
  (Err (Raise KeyError "'province'"), []).
Proof.
  apply (apply_py_without_province no_province "All" "Austin" []); reflexivity.
Defined.

(** X22: the state widget and the category widget of variant A fail, with
    the [TypeError] of [sorted], exactly when their column has a NaN cell
    and a text; when the column has no NaN they offer its values in
    ascending order, none twice.  So one restaurant without categories, in a
    file where another has some, stops the script at the category widget. *)
Theorem options_spec (c : string) (df : DataFrame) :
  has_column df c = true ->
  ((exists e, options c df = Err e) <->
   (exists r, In r (rows df) /\ r c = None) /\
   (exists r v, In r (rows df) /\ r c = Some v)) /\
  ((forall r, In r (rows df) -> r c <> None) ->
   exists names,
     options c df = Ok (map Some names) /\
     StronglySorted (fun a b => String.ltb a b = true) names /\
     forall v, In v names <-> exists r, In r (rows df) /\ r c = Some v).
Proof.
  intros Hc. unfold options. rewrite (getitem_ok df c Hc). cbn [bind].
  set (col := map (fun r => r c) (rows df)).
  assert (Hcol : forall x, In x col <-> exists r, In r (rows df) /\ r c = x).
  { intros x. subst col. rewrite in_map_iff. split.
    - intros (r & Er & Hr). exists r. auto.
    - intros (r & Hr & Er). exists r. auto. }
  destruct (sorted_unique col) as [Hr Hok]. split.
  - rewrite Hr, Hcol. apply and_iff_compat_l. split.
    + intros (v & Hv). apply Hcol in Hv. destruct Hv as (r & H). exists r, v. exact H.
    + intros (r & v & H). exists v. apply Hcol. exists r. exact H.
  - intros Hall. destruct Hok as (names & H1 & H2 & H3).
    + intros x Hx ->. apply Hcol in Hx. destruct Hx as (r & Hr' & Er).
      apply (Hall r Hr' Er).
    + exists names. split; [exact H1|]. split; [exact H2|].
      intros v. rewrite H3. apply Hcol.
Qed.

Lemma options_witness :
  (exists e, options "categories" sample = Err e) /\
  exists names,
    options "province" sample = Ok (map Some names) /\
    StronglySorted (fun a b => String.ltb a b = true) names /\
    forall v, In v names <-> exists r, In r (rows sample) /\ r "province" = Some v.
Proof.
  split.
  - apply (options_spec "categories" sample); [reflexivity|]. split.
    + eexists. split; [do 4 right; left; reflexivity | reflexivity].
    + eexists. eexists. split; [left; reflexivity | reflexivity].
  - apply (options_spec "province" sample); [reflexivity|].
    intros r [<- | [<- | [<- | [<- | [<- | []]]]]]; discriminate.
Defined.
